(** * The S3 client binding of aws-crt-python ([awscrt/s3_client.py])

    A shallow embedding of the Python adapter ([S3Client], [S3Request]) over
    an explicit store of Python objects, with the callbacks the adapter
    hands to the native layer, and a model of the part scheduler of the
    native transfer core. *)

From Stdlib Require Import ZArith Lia Ascii.
From Stdlib Require Import Floats.SpecFloat.
From Equations Require Import Equations.
From stdpp Require Import gmap strings list.

Local Open Scope string_scope.
Local Open Scope Z_scope.

(** ** Python values *)

(** The classes the adapter tests its arguments against with [isinstance]. *)
Inductive pyclass :=
| ClientBootstrap
| AwsCredentialsProvider
| TlsConnectionOptions
| HttpRequest
| S3ClientClass
| S3RequestClass
| OtherClass (name : string).

Global Instance pyclass_eq_dec : EqDecision pyclass.
Proof. solve_decision. Defined.

(** [class AwsS3RequestType(IntEnum)]: DEFAULT = 0, GET_OBJECT = 1,
    PUT_OBJECT = 2. *)
Inductive AwsS3RequestType := DEFAULT | GET_OBJECT | PUT_OBJECT.

Definition AwsS3RequestType_value (t : AwsS3RequestType) : Z :=
  match t with DEFAULT => 0 | GET_OBJECT => 1 | PUT_OBJECT => 2 end.

(** A Python value.  Objects are known by identity (their address in the
    store); [PyFunc] stands for functions, lambdas and bound methods, which
    are callable and always true in a boolean context.  [PyCallable] is an
    instance of a class that defines [__call__]: it is callable, and its
    truth value [truth] is what its [__bool__] or [__len__] makes it, which
    may be false. *)
Inductive pyval :=
| PyNone
| PyBool (b : bool)
| PyInt (z : Z)
| PyFloat (f : spec_float)
| PyStr (s : string)
| PyEnum (t : AwsS3RequestType)
| PyObj (cls : pyclass) (addr : nat)
| PyFunc (addr : nat)
| PyCallable (addr : nat) (truth : bool).

(** The builtin types and classes on the right of an [isinstance]. *)
Inductive pytype := TInt | TFloat | TStr | TClass (c : pyclass).

(** [isinstance(v, t)]: [bool] and [IntEnum] members are instances of [int]. *)
Definition isinstance (v : pyval) (t : pytype) : bool :=
  match t, v with
  | TInt, PyInt _ => true
  | TInt, PyBool _ => true
  | TInt, PyEnum _ => true
  | TFloat, PyFloat _ => true
  | TStr, PyStr _ => true
  | TClass c, PyObj c' _ => bool_decide (c = c')
  | _, _ => false
  end.

(** [callable(v)] *)
Definition callable (v : pyval) : bool :=
  match v with PyFunc _ | PyCallable _ _ => true | _ => false end.

Definition is_None (v : pyval) : bool :=
  match v with PyNone => true | _ => false end.

(** Truth value of [v] in [if v:] and [if not v:]. *)
Definition truthy (v : pyval) : bool :=
  match v with
  | PyNone => false
  | PyBool b => b
  | PyInt z => negb (z =? 0)
  | PyFloat f => match f with S754_zero _ => false | _ => true end
  | PyStr s => negb (bool_decide (s = ""))
  | PyEnum t => negb (AwsS3RequestType_value t =? 0)
  | PyObj _ _ => true
  | PyFunc _ => true
  | PyCallable _ truth => truth
  end.

(** [v < 0] for a number. *)
Definition negative (v : pyval) : bool :=
  match v with
  | PyInt z => z <? 0
  | PyFloat f => SFltb f (S754_zero false)
  | _ => false
  end.

(** ** Exceptions and results *)

(** Exceptions by class name; [CrtExc code] is the exception that
    [awscrt.exceptions.from_code] builds from a native error code. *)
Inductive exn :=
| PyExc (cls : string)
| CrtExc (code : Z).

Global Instance exn_eq_dec : EqDecision exn.
Proof. solve_decision. Defined.

Definition AssertionError := PyExc "AssertionError".
Definition TypeError := PyExc "TypeError".
Definition AttributeError := PyExc "AttributeError".
Definition InvalidStateError := PyExc "InvalidStateError".
Definition OverflowError := PyExc "OverflowError".
Definition MemoryError := PyExc "MemoryError".
Definition ConfigurationError := PyExc "ConfigurationError".

Inductive result (A : Type) :=
| Ok (a : A)
| Raise (e : exn).
Arguments Ok {A} a.
Arguments Raise {A} e.

Definition is_Ok {A} (r : result A) : bool :=
  match r with Ok _ => true | Raise _ => false end.

(** ** The object store *)

(** [concurrent.futures.Future]: pending until resolved once, with a result
    or an exception; a caller may also cancel a pending future. *)
Inductive future_state :=
| Pending
| Cancelled
| Finished (outcome : result pyval).

Module S3ClientSlots.
(** Instance attributes of an [S3Client]; [None] is a slot not yet
    assigned.  [shutdown_future] holds the address of a future. *)
Record t := Make {
  shutdown_future : option nat;
  _binding : option pyval
}.
Definition empty : t := Make None None.
End S3ClientSlots.

Module S3RequestSlots.
(** [__slots__] of [S3Request], plus the inherited [_binding]. *)
Record t := Make {
  _on_headers_cb : option pyval;
  _on_body_cb : option pyval;
  _finished_future : option nat;
  _shutdown_future : option nat;
  _client : option pyval;
  _binding : option pyval
}.
Definition empty : t := Make None None None None None None.
End S3RequestSlots.

(** A callable handed to the native layer. *)
Inductive request_method := M_on_headers | M_on_body | M_on_finish | M_on_shutdown.

Inductive callback :=
| OnShutdownClosure (shutdown_future : nat)
| BoundMethod (self : nat) (m : request_method).

(** Arguments of [_awscrt.s3_client_new], in call order. *)
Record s3_client_new_args := {
  n_bootstrap : pyval;
  n_credential_provider : pyval;
  n_tls_connection_options : pyval;
  n_on_shutdown : callback;
  n_region : pyval;
  n_part_size : pyval;
  n_connection_timeout_ms : pyval;
  n_throughput_target_gbps : pyval;
  n_throughput_per_vip_gbps : pyval;
  n_num_connections_per_vip : pyval
}.

(** Arguments of [_awscrt.s3_client_make_meta_request], in call order. *)
Record make_meta_request_args := {
  m_client : pyval;
  m_request : pyval;
  m_type : pyval;
  m_on_headers : callback;
  m_on_body : callback;
  m_on_finish : callback;
  m_on_shutdown : callback
}.

Inductive native_call :=
| CallS3ClientNew (a : s3_client_new_args)
| CallMakeMetaRequest (a : make_meta_request_args).

(** One invocation of a user callback: the function and its keyword
    arguments. *)
Record user_call := UserCall {
  uc_function : pyval;
  uc_kwargs : list (string * pyval)
}.

Record world := World {
  futures : gmap nat future_state;
  clients : gmap nat S3ClientSlots.t;
  requests : gmap nat S3RequestSlots.t;
  next_addr : nat;
  notified : list (nat * result pyval);
  user_calls : list user_call;
  native_calls : list native_call
}.

Definition empty_world : world := World ∅ ∅ ∅ 0 [] [] [].

Definition with_futures (f : gmap nat future_state) (w : world) : world :=
  World f (clients w) (requests w) (next_addr w) (notified w) (user_calls w)
        (native_calls w).
Definition with_clients (c : gmap nat S3ClientSlots.t) (w : world) : world :=
  World (futures w) c (requests w) (next_addr w) (notified w) (user_calls w)
        (native_calls w).
Definition with_requests (r : gmap nat S3RequestSlots.t) (w : world) : world :=
  World (futures w) (clients w) r (next_addr w) (notified w) (user_calls w)
        (native_calls w).
Definition with_next_addr (n : nat) (w : world) : world :=
  World (futures w) (clients w) (requests w) n (notified w) (user_calls w)
        (native_calls w).
Definition with_notified (l : list (nat * result pyval)) (w : world) : world :=
  World (futures w) (clients w) (requests w) (next_addr w) l (user_calls w)
        (native_calls w).
Definition with_user_calls (l : list user_call) (w : world) : world :=
  World (futures w) (clients w) (requests w) (next_addr w) (notified w) l
        (native_calls w).
Definition with_native_calls (l : list native_call) (w : world) : world :=
  World (futures w) (clients w) (requests w) (next_addr w) (notified w)
        (user_calls w) l.

(** ** Computations: state passing with exceptions *)

Definition M (A : Type) : Type := world -> result A * world.

Definition ret {A} (a : A) : M A := fun w => (Ok a, w).

Definition raise {A} (e : exn) : M A := fun w => (Raise e, w).

Definition bind {A B} (c : M A) (k : A -> M B) : M B :=
  fun w =>
    match c w with
    | (Ok a, w') => k a w'
    | (Raise e, w') => (Raise e, w')
    end.

Notation "x <- c ;; k" := (bind c (fun x => k))
  (at level 100, c at next level, right associativity).
Notation "c ;; k" := (bind c (fun _ => k))
  (at level 100, right associativity).

Definition lift {A} (r : result A) : M A := fun w => (r, w).

(** [assert c] *)
Definition py_assert (c : bool) : M unit :=
  if c then ret tt else raise AssertionError.

(** A fresh address; every object creation takes one. *)
Definition fresh : M nat :=
  fun w => (Ok (next_addr w), with_next_addr (S (next_addr w)) w).

(** ** What the adapter imports but does not define

    [_awscrt] is the native extension module and [awscrt.auth] a sibling
    module; the adapter only calls them.  User callbacks are arbitrary
    Python functions: [user_function addr kwargs] is the outcome of calling
    the function at [addr]. *)
Record ffi := {
  new_default_chain : pyval -> pyval;
  s3_client_new : s3_client_new_args -> result pyval;
  s3_client_make_meta_request : make_meta_request_args -> result pyval;
  user_function : nat -> list (string * pyval) -> result unit
}.

Module _awscrt.

(** The names the adapter looks up in the native module.  The two
    constructors are functions of the module.  [exceptions] is not an
    attribute of it: [from_code] belongs to the Python module
    [awscrt.exceptions], which the adapter does not import. *)
Definition attributes : list string :=
  ["s3_client_new"; "s3_client_make_meta_request"].

(** The lookup [_awscrt.name]: a name the module does not have raises
    [AttributeError]. *)
Definition getattr (name : string) : M unit :=
  if bool_decide (name ∈ attributes) then ret tt else raise AttributeError.

End _awscrt.

(** ** concurrent.futures.Future *)

Module Future.

(** [Future()] *)
Definition new : M nat :=
  fut <- fresh ;;
  fun w => (Ok fut, with_futures (<[fut := Pending]> (futures w)) w).

(** The common body of [set_result] and [set_exception]: a pending future
    takes the outcome and its waiters are notified; a future that is
    already done or cancelled raises [InvalidStateError] and is left as it
    is (Python 3.8 and later). *)
Definition resolve (fut : nat) (o : result pyval) : M unit :=
  fun w =>
    match futures w !! fut with
    | Some Pending =>
        (Ok tt,
         with_notified (notified w ++ [(fut, o)])
           (with_futures (<[fut := Finished o]> (futures w)) w))
    | Some _ => (Raise InvalidStateError, w)
    | None => (Raise (PyExc "ReferenceError"), w)
    end.

Definition set_result (fut : nat) (v : pyval) : M unit := resolve fut (Ok v).

Definition set_exception (fut : nat) (e : exn) : M unit :=
  resolve fut (Raise e).

(** How many times the completion of [fut] was signalled to its waiters. *)
Definition fired (fut : nat) (w : world) : nat :=
  length (filter (fun n => n.1 = fut) (notified w)).

End Future.

(** ** Keyword-only parameters *)

(** A call with keyword arguments [kw] of a function whose parameters are
    all keyword-only:
    every keyword must be a parameter and every parameter without a default
    must be given, else [TypeError]. *)
Definition keywords_ok (required optional : list string)
    (kw : gmap string pyval) : bool :=
  forallb (fun k => bool_decide (k ∈ (required ++ optional)%list)) (map fst (map_to_list kw))
  && forallb (fun k => bool_decide (is_Some (kw !! k))) required.

Definition kwarg (kw : gmap string pyval) (name : string) (dflt : pyval) : pyval :=
  default dflt (kw !! name).

(** ** class S3Request *)

Module S3Request.
Import S3RequestSlots.

(** The parameters of [__init__] once bound. *)
Record args := {
  client : pyval;
  request : pyval;
  type : pyval;
  on_headers : pyval;
  on_body : pyval
}.

(** Attribute read [self.name]: an unassigned slot raises. *)
Definition getattr {A} (self : nat) (slot : t -> option A) : M A :=
  fun w =>
    match requests w !! self with
    | Some r =>
        match slot r with
        | Some v => (Ok v, w)
        | None => (Raise AttributeError, w)
        end
    | None => (Raise (PyExc "ReferenceError"), w)
    end.

(** Attribute assignments [self.name = v], one per slot. *)
Definition update (self : nat) (f : t -> t) : M unit :=
  fun w => (Ok tt, with_requests (alter f self (requests w)) w).

Definition set_on_headers_cb (v : pyval) (r : t) : t :=
  Make (Some v) (_on_body_cb r) (_finished_future r) (_shutdown_future r)
       (_client r) (_binding r).
Definition set_on_body_cb (v : pyval) (r : t) : t :=
  Make (_on_headers_cb r) (Some v) (_finished_future r) (_shutdown_future r)
       (_client r) (_binding r).
Definition set_finished_future (v : nat) (r : t) : t :=
  Make (_on_headers_cb r) (_on_body_cb r) (Some v) (_shutdown_future r)
       (_client r) (_binding r).
Definition set_shutdown_future (v : nat) (r : t) : t :=
  Make (_on_headers_cb r) (_on_body_cb r) (_finished_future r) (Some v)
       (_client r) (_binding r).
Definition set_client (v : pyval) (r : t) : t :=
  Make (_on_headers_cb r) (_on_body_cb r) (_finished_future r)
       (_shutdown_future r) (Some v) (_binding r).
Definition set_binding (v : pyval) (r : t) : t :=
  Make (_on_headers_cb r) (_on_body_cb r) (_finished_future r)
       (_shutdown_future r) (_client r) (Some v).

(** The names an instance of [class S3Request] has: the five slots, the
    methods and the two properties of the class body, and [_binding], the
    slot of the base class [NativeResource] that [__init__] assigns. *)
Definition attribute_names : list string :=
  ["_on_headers_cb"; "_on_body_cb"; "_finished_future"; "_shutdown_future";
   "_client"; "_binding"; "__init__"; "_on_headers"; "_on_body";
   "_on_finish"; "_on_shutdown"; "finished_future"; "shutdown_future"].

(** Whether [self.name] finds an attribute, as the first step of a call
    [self.name(...)]: the class has [__slots__] and no [__getattr__], so an
    instance has the names above and any other name raises
    [AttributeError].  The special names of the form [__x__] that every
    object inherits are left out. *)
Definition lookup (self : nat) (name : string) : M unit :=
  fun w =>
    match requests w !! self with
    | Some _ =>
        if bool_decide (name ∈ attribute_names)
        then (Ok tt, w)
        else (Raise AttributeError, w)
    | None => (Raise (PyExc "ReferenceError"), w)
    end.

(** The properties [finished_future] and [shutdown_future]. *)
Definition finished_future (self : nat) : M nat :=
  getattr self _finished_future.

Definition shutdown_future (self : nat) : M nat :=
  getattr self _shutdown_future.

Section WithFFI.
Variable E : ffi.

(** A call [f(k1=v1, ...)] of a user callback. *)
Definition call_user (f : pyval) (kwargs : list (string * pyval)) : M unit :=
  fun w =>
    match f with
    | PyFunc addr | PyCallable addr _ =>
        (user_function E addr kwargs,
         with_user_calls (user_calls w ++ [UserCall f kwargs]) w)
    | _ => (Raise TypeError, w)
    end.

(** The call of [_awscrt.s3_client_make_meta_request]. *)
Definition native_make_meta_request (a : make_meta_request_args) : M pyval :=
  fun w =>
    (s3_client_make_meta_request E a,
     with_native_calls (native_calls w ++ [CallMakeMetaRequest a]) w).

(** [S3Request.__init__], run on a new instance.  [super().__init__()] is
    [NativeResource.__init__], which assigns none of the attributes below. *)
Definition init (a : args) : M nat :=
  self <- fresh ;;
  (fun w => (Ok tt, with_requests (<[self := empty]> (requests w)) w)) ;;
  py_assert (isinstance (client a) (TClass S3ClientClass)) ;;
  py_assert (isinstance (request a) (TClass HttpRequest)) ;;
  py_assert (callable (on_headers a) || is_None (on_headers a)) ;;
  py_assert (callable (on_body a) || is_None (on_body a)) ;;
  update self (set_on_headers_cb (on_headers a)) ;;
  update self (set_on_body_cb (on_body a)) ;;
  update self (set_client (client a)) ;;
  fin <- Future.new ;;
  update self (set_finished_future fin) ;;
  shut <- Future.new ;;
  update self (set_shutdown_future shut) ;;
  binding <- native_make_meta_request
    {| m_client := client a;
       m_request := request a;
       m_type := type a;
       m_on_headers := BoundMethod self M_on_headers;
       m_on_body := BoundMethod self M_on_body;
       m_on_finish := BoundMethod self M_on_finish;
       m_on_shutdown := BoundMethod self M_on_shutdown |} ;;
  update self (set_binding binding) ;;
  ret self.

Definition _on_headers (self : nat) (status_code headers : pyval) : M unit :=
  cb <- getattr self _on_headers_cb ;;
  if truthy cb
  then call_user cb [("status_code", status_code); ("headers", headers)]
  else ret tt.

Definition _on_body (self : nat) (chunk : pyval) : M unit :=
  cb <- getattr self _on_body_cb ;;
  if truthy cb then call_user cb [("chunk", chunk)] else ret tt.

(** [_on_finish].  In the first branch the receiver
    [self._finished_future] is evaluated first, then the argument
    [_awscrt.exceptions.from_code(error_code)], whose lookup of
    [exceptions] in the native module raises before [from_code] is reached
    and before [set_exception] is called. *)
Definition _on_finish (self : nat) (error_code : Z) : M unit :=
  if truthy (PyInt error_code)
  then fut <- getattr self _finished_future ;;
       _awscrt.getattr "exceptions" ;;
       Future.set_exception fut (CrtExc error_code)
  else fut <- getattr self _finished_future ;;
       Future.set_result fut (PyStr "what?").

Definition _on_shutdown (self : nat) : M unit :=
  fut <- shutdown_future self ;;
  Future.set_result fut (PyStr "what?").

End WithFFI.

(** All the [assert] statements of [__init__] together. *)
Definition well_typed (a : args) : bool :=
  isinstance (client a) (TClass S3ClientClass)
  && isinstance (request a) (TClass HttpRequest)
  && (callable (on_headers a) || is_None (on_headers a))
  && (callable (on_body a) || is_None (on_body a)).

(** The arguments [__init__] hands to [_awscrt.s3_client_make_meta_request]. *)
Definition native_args (self : nat) (a : args) : make_meta_request_args :=
  {| m_client := client a;
     m_request := request a;
     m_type := type a;
     m_on_headers := BoundMethod self M_on_headers;
     m_on_body := BoundMethod self M_on_body;
     m_on_finish := BoundMethod self M_on_finish;
     m_on_shutdown := BoundMethod self M_on_shutdown |}.

End S3Request.

(** ** class S3Client *)

Module S3Client.

(** The parameters of [__init__] once bound. *)
Record args := {
  bootstrap : pyval;
  region : pyval;
  credential_provider : pyval;
  tls_connection_options : pyval;
  part_size : pyval;
  connection_timeout_ms : pyval;
  throughput_target_gbps : pyval;
  throughput_per_vip_gbps : pyval;
  num_connections_per_vip : pyval
}.

Definition required : list string := ["bootstrap"; "region"].

Definition optional : list string :=
  ["credential_provider"; "tls_connection_options"; "part_size";
   "connection_timeout_ms"; "throughput_target_gbps";
   "throughput_per_vip_gbps"; "num_connections_per_vip"].

(** The signature of [__init__]: [bootstrap] and [region] are required,
    the providers default to [None] and the numeric options to [0]. *)
Definition bind_args (kw : gmap string pyval) : result args :=
  if keywords_ok required optional kw then
    Ok {| bootstrap := kwarg kw "bootstrap" PyNone;
          region := kwarg kw "region" PyNone;
          credential_provider := kwarg kw "credential_provider" PyNone;
          tls_connection_options := kwarg kw "tls_connection_options" PyNone;
          part_size := kwarg kw "part_size" (PyInt 0);
          connection_timeout_ms := kwarg kw "connection_timeout_ms" (PyInt 0);
          throughput_target_gbps := kwarg kw "throughput_target_gbps" (PyInt 0);
          throughput_per_vip_gbps := kwarg kw "throughput_per_vip_gbps" (PyInt 0);
          num_connections_per_vip := kwarg kw "num_connections_per_vip" (PyInt 0) |}
  else Raise TypeError.

(** The names an instance of [class S3Client] has: its slot
    [shutdown_future], the inherited slot [_binding], and the methods of the
    class body.  [on_shutdown] is a function local to [__init__], not an
    attribute. *)
Definition attribute_names : list string :=
  ["shutdown_future"; "_binding"; "__init__"; "make_request"].

(** Whether [self.name] finds an attribute, as for [S3Request]. *)
Definition lookup (self : nat) (name : string) : M unit :=
  fun w =>
    match clients w !! self with
    | Some _ =>
        if bool_decide (name ∈ attribute_names)
        then (Ok tt, w)
        else (Raise AttributeError, w)
    | None => (Raise (PyExc "ReferenceError"), w)
    end.

(** The closure [on_shutdown] of [__init__], which captures the local
    [shutdown_future]. *)
Definition on_shutdown (shutdown_future : nat) : M unit :=
  Future.set_result shutdown_future PyNone.

Definition set_shutdown_future (self fut : nat) : M unit :=
  fun w =>
    (Ok tt,
     with_clients
       (alter (fun c => S3ClientSlots.Make (Some fut) (S3ClientSlots._binding c))
              self (clients w)) w).

Definition set_binding (self : nat) (b : pyval) : M unit :=
  fun w =>
    (Ok tt,
     with_clients
       (alter (fun c => S3ClientSlots.Make (S3ClientSlots.shutdown_future c) (Some b))
              self (clients w)) w).

Section WithFFI.
Variable E : ffi.

(** The call of [_awscrt.s3_client_new]. *)
Definition native_new (a : s3_client_new_args) : M pyval :=
  fun w =>
    (s3_client_new E a,
     with_native_calls (native_calls w ++ [CallS3ClientNew a]) w).

(** The provider handed to the native client: [if not credential_provider:
    credential_provider = AwsCredentialsProvider.new_default_chain(bootstrap)]. *)
Definition effective_provider (a : args) : pyval :=
  if negb (truthy (credential_provider a))
  then new_default_chain E (bootstrap a)
  else credential_provider a.

(** The arguments [__init__] hands to [_awscrt.s3_client_new]. *)
Definition native_args (shutdown_future : nat) (a : args) : s3_client_new_args :=
  {| n_bootstrap := bootstrap a;
     n_credential_provider := effective_provider a;
     n_tls_connection_options := tls_connection_options a;
     n_on_shutdown := OnShutdownClosure shutdown_future;
     n_region := region a;
     n_part_size := part_size a;
     n_connection_timeout_ms := connection_timeout_ms a;
     n_throughput_target_gbps := throughput_target_gbps a;
     n_throughput_per_vip_gbps := throughput_per_vip_gbps a;
     n_num_connections_per_vip := num_connections_per_vip a |}.

(** [S3Client.__init__], run on a new instance.  [super().__init__()] is
    [NativeResource.__init__], which assigns none of the attributes below. *)
Definition init (a : args) : M nat :=
  self <- fresh ;;
  (fun w => (Ok tt, with_clients (<[self := S3ClientSlots.empty]> (clients w)) w)) ;;
  py_assert (isinstance (bootstrap a) (TClass ClientBootstrap)) ;;
  py_assert (isinstance (region a) TStr) ;;
  py_assert (isinstance (credential_provider a) (TClass AwsCredentialsProvider)
             || is_None (credential_provider a)) ;;
  py_assert (isinstance (tls_connection_options a) (TClass TlsConnectionOptions)
             || is_None (tls_connection_options a)) ;;
  py_assert (isinstance (part_size a) TInt || is_None (part_size a)) ;;
  py_assert (isinstance (connection_timeout_ms a) TInt
             || is_None (connection_timeout_ms a)) ;;
  py_assert (isinstance (throughput_target_gbps a) TInt
             || isinstance (throughput_target_gbps a) TFloat
             || is_None (throughput_target_gbps a)) ;;
  py_assert (isinstance (throughput_per_vip_gbps a) TInt
             || isinstance (throughput_per_vip_gbps a) TFloat
             || is_None (throughput_per_vip_gbps a)) ;;
  py_assert (isinstance (num_connections_per_vip a) TInt
             || is_None (num_connections_per_vip a)) ;;
  let credential_provider := effective_provider a in
  shutdown_future <- Future.new ;;
  set_shutdown_future self shutdown_future ;;
  binding <- native_new
    {| n_bootstrap := bootstrap a;
       n_credential_provider := credential_provider;
       n_tls_connection_options := tls_connection_options a;
       n_on_shutdown := OnShutdownClosure shutdown_future;
       n_region := region a;
       n_part_size := part_size a;
       n_connection_timeout_ms := connection_timeout_ms a;
       n_throughput_target_gbps := throughput_target_gbps a;
       n_throughput_per_vip_gbps := throughput_per_vip_gbps a;
       n_num_connections_per_vip := num_connections_per_vip a |} ;;
  set_binding self binding ;;
  ret self.

(** The constructor call with keyword arguments [kw]. *)
Definition new (kw : gmap string pyval) : M nat :=
  a <- lift (bind_args kw) ;;
  init a.

(** [make_request(self, *, request, type, on_headers=None, on_body=None)] *)
Definition make_request (self : nat) (kw : gmap string pyval) : M nat :=
  if keywords_ok ["request"; "type"] ["on_headers"; "on_body"] kw then
    S3Request.init E
      {| S3Request.client := PyObj S3ClientClass self;
         S3Request.request := kwarg kw "request" PyNone;
         S3Request.type := kwarg kw "type" PyNone;
         S3Request.on_headers := kwarg kw "on_headers" PyNone;
         S3Request.on_body := kwarg kw "on_body" PyNone |}
  else raise TypeError.

End WithFFI.

(** All the [assert] statements of [__init__] together. *)
Definition well_typed (a : args) : bool :=
  isinstance (bootstrap a) (TClass ClientBootstrap)
  && isinstance (region a) TStr
  && (isinstance (credential_provider a) (TClass AwsCredentialsProvider)
      || is_None (credential_provider a))
  && (isinstance (tls_connection_options a) (TClass TlsConnectionOptions)
      || is_None (tls_connection_options a))
  && (isinstance (part_size a) TInt || is_None (part_size a))
  && (isinstance (connection_timeout_ms a) TInt
      || is_None (connection_timeout_ms a))
  && (isinstance (throughput_target_gbps a) TInt
      || isinstance (throughput_target_gbps a) TFloat
      || is_None (throughput_target_gbps a))
  && (isinstance (throughput_per_vip_gbps a) TInt
      || isinstance (throughput_per_vip_gbps a) TFloat
      || is_None (throughput_per_vip_gbps a))
  && (isinstance (num_connections_per_vip a) TInt
      || is_None (num_connections_per_vip a)).

End S3Client.

(** ** The callbacks as the native layer sees them *)

(** What the native layer reports to a callable it was handed. *)
Inductive event :=
| Headers (status_code headers : pyval)
| Body (chunk : pyval)
| Finish (error_code : Z)
| Shutdown.

Section Callbacks.
Variable E : ffi.

(** Calling a callable with the arguments of an event; a call that does
    not fit the callable's parameters is a [TypeError]. *)
Definition invoke (cb : callback) (ev : event) : M unit :=
  match cb, ev with
  | OnShutdownClosure fut, Shutdown => S3Client.on_shutdown fut
  | BoundMethod self M_on_headers, Headers status_code headers =>
      S3Request._on_headers E self status_code headers
  | BoundMethod self M_on_body, Body chunk => S3Request._on_body E self chunk
  | BoundMethod self M_on_finish, Finish error_code =>
      S3Request._on_finish self error_code
  | BoundMethod self M_on_shutdown, Shutdown => S3Request._on_shutdown self
  | _, _ => raise TypeError
  end.

(** The callable of request [self] an event goes to, as registered by
    [S3Request.__init__]. *)
Definition handler (self : nat) (ev : event) : callback :=
  match ev with
  | Headers _ _ => BoundMethod self M_on_headers
  | Body _ => BoundMethod self M_on_body
  | Finish _ => BoundMethod self M_on_finish
  | Shutdown => BoundMethod self M_on_shutdown
  end.

(** Events reported one after the other to request [self]; each call's
    outcome is kept, an exception in one call does not stop the next. *)
Fixpoint deliver (self : nat) (evs : list event) (w : world)
    : list (result unit) * world :=
  match evs with
  | [] => ([], w)
  | ev :: evs' =>
      let (r, w1) := invoke (handler self ev) ev w in
      let (rs, w2) := deliver self evs' w1 in
      (r :: rs, w2)
  end.

End Callbacks.

(** ** The native transfer core

    The adapter hands its bound methods to [_awscrt] and is called back; the
    engine that splits a transfer and decides when to call back is native
    code.  Its part scheduler is modelled here from the design document. *)

Module PartScheduler.

(** Modelled from the spec: the Part Scheduler's byte ranges (the splitting
    is done by the native library, which the adapter only calls).  A first
    range of [part_size] bytes from offset 0, then the remaining parts as
    ascending ranges, each of at most [part_size] bytes, the last one
    possibly smaller; what is left once it fits in one part is a single
    range, so a size that is a multiple of the part size has no undersized
    trailing part, an object no larger than the part size is one unsplit
    part and size 0 is exactly one zero-length part. *)
Equations? ranges (start size part_size : Z) : list (Z * Z)
  by wf (Z.to_nat (size - start)) lt :=
  ranges start size part_size
    with decide (0 < part_size ∧ part_size < size - start) := {
    | left _ => (start, start + part_size)
                  :: ranges (start + part_size) size part_size
    | right _ => [(start, size)] }.
Proof. lia. Qed.

(** Modelled from the spec: [plan] for an object of [size] bytes. *)
Definition plan (size part_size : Z) : list (Z * Z) := ranges 0 size part_size.

(** The number of bytes of the range [[r.1, r.2)]. *)
Definition length_of (r : Z * Z) : Z := r.2 - r.1.

(** Byte [x] lies in the range [[r.1, r.2)]. *)
Definition contains (x : Z) (r : Z * Z) : bool := (r.1 <=? x) && (x <? r.2).

(** Consecutive ranges meet: each one starts where the one before ends. *)
Fixpoint contiguous (from : Z) (l : list (Z * Z)) : bool :=
  match l with
  | [] => true
  | r :: l' => (r.1 =? from) && contiguous r.2 l'
  end.

End PartScheduler.

(** ** Derived notions used in the statements *)

(** The store once [S3Request.__init__] has returned normally, the native
    call having returned [binding]: the request at the first fresh address,
    its two futures at the next two. *)
Definition request_built (a : S3Request.args) (binding : pyval) (w : world) : world :=
  let self := next_addr w in
  World (<[S (S self) := Pending]> (<[S self := Pending]> (futures w)))
        (clients w)
        (<[self := S3RequestSlots.Make
                     (Some (S3Request.on_headers a)) (Some (S3Request.on_body a))
                     (Some (S self)) (Some (S (S self)))
                     (Some (S3Request.client a)) (Some binding)]> (requests w))
        (S (S (S self))) (notified w) (user_calls w)
        (native_calls w ++ [CallMakeMetaRequest (S3Request.native_args self a)]).

(** The store once [S3Client.__init__] has returned normally. *)
Definition client_built (E : ffi) (a : S3Client.args) (binding : pyval)
    (w : world) : world :=
  let self := next_addr w in
  World (<[S self := Pending]> (futures w))
        (<[self := S3ClientSlots.Make (Some (S self)) (Some binding)]> (clients w))
        (requests w)
        (S (S self)) (notified w) (user_calls w)
        (native_calls w ++ [CallS3ClientNew (S3Client.native_args E (S self) a)]).

(** Everything that can happen to the store: constructing clients and
    requests, the native layer calling a callable it was handed, and reads
    of the two future properties. *)
Inductive operation :=
| NewClient (kw : gmap string pyval)
| MakeRequest (client : nat) (kw : gmap string pyval)
| Callback (cb : callback) (ev : event)
| ReadFinishedFuture (self : nat)
| ReadShutdownFuture (self : nat).

Definition perform (E : ffi) (op : operation) (w : world) : world :=
  match op with
  | NewClient kw => (S3Client.new E kw w).2
  | MakeRequest client kw => (S3Client.make_request E client kw w).2
  | Callback cb ev => (invoke E cb ev w).2
  | ReadFinishedFuture self => (S3Request.finished_future self w).2
  | ReadShutdownFuture self => (S3Request.shutdown_future self w).2
  end.

Definition perform_all (E : ffi) (ops : list operation) (w : world) : world :=
  fold_left (fun w op => perform E op w) ops w.

(** The user callback invocations a sequence of events gives rise to, for
    a request whose stored callbacks are [h] and [b]. *)
Definition expected_calls (h b : pyval) (evs : list event) : list user_call :=
  flat_map
    (fun ev =>
       match ev with
       | Headers status_code headers =>
           if truthy h
           then [UserCall h [("status_code", status_code); ("headers", headers)]]
           else []
       | Body chunk => if truthy b then [UserCall b [("chunk", chunk)]] else []
       | _ => []
       end)
    evs.

(** The event goes to a callback that was left out. *)
Definition discarded (h b : pyval) (ev : event) : bool :=
  match ev with
  | Headers _ _ => is_None h
  | Body _ => is_None b
  | _ => false
  end.

(** ** Concrete inputs *)

Module Sample.

(** An environment in which the native calls succeed and user callbacks
    return normally. *)
Definition env : ffi :=
  {| new_default_chain := fun bootstrap => PyObj AwsCredentialsProvider 1000;
     s3_client_new := fun _ => Ok (PyObj (OtherClass "PyCapsule") 0);
     s3_client_make_meta_request := fun _ => Ok (PyObj (OtherClass "PyCapsule") 1);
     user_function := fun _ _ => Ok tt |}.

Definition client_kwargs : gmap string pyval :=
  <["bootstrap" := PyObj ClientBootstrap 100]>
    (<["region" := PyStr "us-west-2"]> ∅).

(** Negative part size, throughput target and connection count. *)
Definition negative_kwargs : gmap string pyval :=
  <["part_size" := PyInt (-1)]>
    (<["throughput_target_gbps" := PyInt (-1)]>
       (<["num_connections_per_vip" := PyInt (-1)]> client_kwargs)).

(** TLS options that are not a [TlsConnectionOptions]. *)
Definition bad_tls_kwargs : gmap string pyval :=
  <["tls_connection_options" := PyStr "not tls options"]> client_kwargs.

(** The store after [S3Client(bootstrap=..., region=...)]: the client is at
    address 0 and its shutdown future at address 1. *)
Definition with_client : world := (S3Client.new env client_kwargs empty_world).2.

Definition request_kwargs : gmap string pyval :=
  <["request" := PyObj HttpRequest 200]>
    (<["type" := PyEnum GET_OBJECT]>
       (<["on_headers" := PyFunc 300]> ∅)).

Definition progress_kwargs : gmap string pyval :=
  <["on_progress" := PyFunc 301]> request_kwargs.

(** An [on_body] callback that is callable and false in a boolean context,
    as an instance of a class with [__call__] and [__len__] returning 0. *)
Definition false_callback_kwargs : gmap string pyval :=
  <["on_body" := PyCallable 302 false]> request_kwargs.

(** The store after [make_request] on that client: the request is at
    address 2, its finished future at 3 and its shutdown future at 4. *)
Definition with_request : world :=
  (S3Client.make_request env 0 request_kwargs with_client).2.

Definition MiB : Z := 1024 * 1024.

End Sample.

(** ** Further notions: sequences of callbacks, and the tests' read stream *)

(** A terminal event that reports success: error code 0. *)
Definition is_success (ev : event) : bool :=
  match ev with Finish error_code => error_code =? 0 | _ => false end.

(** A terminal event that reports an error: a non-zero error code. *)
Definition is_error (ev : event) : bool :=
  match ev with Finish error_code => negb (error_code =? 0) | _ => false end.

Definition is_shutdown (ev : event) : bool :=
  match ev with Shutdown => true | _ => false end.

Definition is_data (ev : event) : bool :=
  match ev with Headers _ _ | Body _ => true | _ => false end.

(** Modelled from the spec: the events of one Meta-Request in the order of
    the ordering contract of result reporting, which the native layer keeps
    and which is not in the adapter: at most one header event, then the
    body chunks, and last the terminal event (progress events, for which
    the adapter has no callback, left out). *)
Definition data_events (header : option (pyval * pyval))
    (chunks : list pyval) : list event :=
  (match header with
   | Some (status_code, headers) => [Headers status_code headers]
   | None => []
   end ++ map Body chunks)%list.

Definition in_contract_order (header : option (pyval * pyval))
    (chunks : list pyval) (error_code : Z) : list event :=
  (data_events header chunks ++ [Finish error_code])%list.

(** The calls of the user callbacks [h] and [b] that the data events of a
    Meta-Request give rise to: the header call first, then one body call
    per chunk, each only if its callback is true in a boolean context. *)
Definition header_call (h : pyval) (header : option (pyval * pyval))
    : list user_call :=
  match header with
  | Some (status_code, headers) =>
      if truthy h
      then [UserCall h [("status_code", status_code); ("headers", headers)]]
      else []
  | None => []
  end.

Definition body_calls (b : pyval) (chunks : list pyval) : list user_call :=
  if truthy b
  then map (fun chunk => UserCall b [("chunk", chunk)]) chunks
  else [].

(** How a future can differ between a store [w] and a later store [w']:
    not at all, or it was pending in [w] and is finished in [w'], its
    waiters having been notified once more. *)
Definition resolved_at_most_once (fut : nat) (w w' : world) : Prop :=
  (futures w' !! fut = futures w !! fut /\
   Future.fired fut w' = Future.fired fut w) \/
  (futures w !! fut = Some Pending /\
   (exists o, futures w' !! fut = Some (Finished o)) /\
   Future.fired fut w' = S (Future.fired fut w)).

(** The state of a future that was pending, after a sequence of events of
    which the first one that resolves it, if any, gives it [o]. *)
Definition resolved_by (o : option (result pyval)) : future_state :=
  match o with
  | Some r => Finished r
  | None => Pending
  end.

(** The state of a future after a sequence of events, from its state [s]
    before: only a pending future changes, and only by the first event
    that resolves it. *)
Definition after (s : future_state) (o : option (result pyval)) : future_state :=
  match s with Pending => resolved_by o | _ => s end.

(** The default of an optional parameter of [S3Client.__init__]. *)
Definition client_option_default (name : string) : pyval :=
  if bool_decide (name = "credential_provider")
     || bool_decide (name = "tls_connection_options")
  then PyNone
  else PyInt 0.

(** The native layer calling the same callable [n] times with the same
    event: the outcomes of the calls and the store they leave. *)
Fixpoint invoke_times (E : ffi) (cb : callback) (ev : event) (n : nat)
    (w : world) : list (result unit) * world :=
  match n with
  | O => ([], w)
  | S n' =>
      let (r, w1) := invoke E cb ev w in
      let (rs, w2) := invoke_times E cb ev n' w1 in
      (r :: rs, w2)
  end.

(** The object of the store a value refers to has an address below the
    allocation pointer: it was created earlier. *)
Definition allocated (w : world) (addr : nat) : Prop := (addr < next_addr w)%nat.

(** [Future.done()]: true once the future is finished or cancelled. *)
Definition future_done (fut : nat) : M bool :=
  fun w =>
    match futures w !! fut with
    | Some Pending => (Ok false, w)
    | Some _ => (Ok true, w)
    | None => (Raise (PyExc "ReferenceError"), w)
    end.

Module FakeReadStream.

(** [class FakeReadStream] of [test/test_s3.py]: [__init__] stores the
    future it is given in [_future]. *)
Record t := {
  _future : nat
}.

Definition init (read_future : nat) : t := {| _future := read_future |}.

(** What bounds a Python object in size: [maxsize] is [sys.maxsize], the
    largest index, and [available n] tells whether an object of [n] bytes
    can be allocated. *)
Record limits := {
  maxsize : Z;
  available : Z -> bool
}.

(** The integer a value gives as a repetition count (its [__index__]):
    integers, booleans and members of an [IntEnum] have one. *)
Definition index (v : pyval) : option Z :=
  match v with
  | PyInt z => Some z
  | PyBool b => Some (if b then 1 else 0)
  | PyEnum t => Some (AwsS3RequestType_value t)
  | _ => None
  end.

Section WithLimits.
Variable L : limits.

(** ["x" * length]: [TypeError] for a length that is no integer,
    [OverflowError] for one that is no index, the empty string for an index
    that is not positive, and [MemoryError] when the string cannot be
    allocated. *)
Definition repeat_x (length : pyval) : result string :=
  match index length with
  | None => Raise TypeError
  | Some n =>
      if (n <? - maxsize L - 1) || (maxsize L <? n) then Raise OverflowError
      else if n <=? 0 then Ok ""
      else if available L n
           then Ok (String.string_of_list_ascii (repeat "x"%char (Z.to_nat n)))
           else Raise MemoryError
  end.

(** [bytes(s, 'utf-8')] for a string of ASCII characters: one byte per
    character; the empty result needs no allocation. *)
Definition bytes_utf8 (s : string) : result (list Byte.byte) :=
  match s with
  | "" => Ok []
  | _ =>
      if available L (Z.of_nat (String.length s))
      then Ok (String.list_byte_of_string s)
      else Raise MemoryError
  end.

(** [read(self, length)] *)
Definition read (self : t) (length : pyval) : M (list Byte.byte) :=
  fake_string <- lift (repeat_x length) ;;
  fake_data <- lift (bytes_utf8 fake_string) ;;
  is_done <- future_done (_future self) ;;
  (if negb is_done then Future.set_result (_future self) PyNone else ret tt) ;;
  ret fake_data.

(** Successive calls of [read] with the given lengths; each call's outcome
    is kept. *)
Fixpoint read_all (self : t) (lengths : list pyval) (w : world)
    : list (result (list Byte.byte)) * world :=
  match lengths with
  | [] => ([], w)
  | length :: lengths' =>
      let (r, w1) := read self length w in
      let (rs, w2) := read_all self lengths' w1 in
      (r :: rs, w2)
  end.

(** The length can be read: it is an index, and the memory for that many
    bytes, if any are asked for, is there. *)
Definition readable (length : pyval) : bool :=
  match index length with
  | Some n =>
      (- maxsize L - 1 <=? n) && (n <=? maxsize L)
      && ((n <=? 0) || available L n)
  | None => false
  end.

End WithLimits.

(** The bytes a successful [read] returns. *)
Definition expected_data (length : pyval) : list Byte.byte :=
  repeat Byte.x78 (Z.to_nat (default 0 (index length))).

End FakeReadStream.

(** * Properties *)

Local Arguments isinstance : simpl never.
Local Arguments callable : simpl never.
Local Arguments is_None : simpl never.
Local Arguments truthy : simpl never.

Ltac unfold_monad :=
  unfold bind, fresh, py_assert, ret, raise, lift, Future.new,
    S3Request.update, S3Request.native_make_meta_request,
    S3Client.native_new, S3Client.set_shutdown_future, S3Client.set_binding;
  cbn.

Ltac split_ifs :=
  repeat match goal with
  | |- context [if ?c then _ else _] => destruct c eqn:?; cbn; try discriminate
  end.

(** ** Construction of a request *)

Lemma S3Request_init_inv E a w self w1 :
  S3Request.init E a w = (Ok self, w1) ->
  S3Request.well_typed a = true /\ self = next_addr w /\
  exists b,
    s3_client_make_meta_request E (S3Request.native_args self a) = Ok b /\
    w1 = request_built a b w.
Proof.
  unfold S3Request.init, S3Request.well_typed. unfold_monad. split_ifs.
  unfold S3Request.native_args.
  destruct (s3_client_make_meta_request E _) as [b|e] eqn:Hn; cbn; [|discriminate].
  intros [= <- <-]. split; [done|]. split; [done|].
  exists b. split; [done|].
  unfold request_built, with_requests, with_native_calls; cbn. f_equal.
  rewrite !alter_insert_eq. done.
Qed.

Lemma S3Request_init_typed E a w :
  S3Request.well_typed a = true ->
  S3Request.init E a w =
    match s3_client_make_meta_request E (S3Request.native_args (next_addr w) a) with
    | Ok b => (Ok (next_addr w), request_built a b w)
    | Raise e => (Raise e, (S3Request.init E a w).2)
    end.
Proof.
  unfold S3Request.init, S3Request.well_typed. unfold_monad.
  intros Ht. repeat (apply andb_prop in Ht as [Ht ?]).
  rewrite Ht. cbn.
  repeat match goal with H : _ = true |- _ => rewrite H; clear H; cbn end.
  unfold S3Request.native_args.
  destruct (s3_client_make_meta_request E _) as [b|e] eqn:Hn; cbn; [|done].
  unfold request_built, with_requests, with_native_calls; cbn. do 2 f_equal.
  rewrite !alter_insert_eq. done.
Qed.

(** Whatever its outcome, [__init__] writes only at fresh addresses. *)
Lemma S3Request_init_frame E a w :
  let w1 := (S3Request.init E a w).2 in
  (next_addr w <= next_addr w1)%nat /\
  clients w1 = clients w /\
  (forall i, (i < next_addr w)%nat -> requests w1 !! i = requests w !! i) /\
  (forall i, (i < next_addr w)%nat -> futures w1 !! i = futures w !! i) /\
  notified w1 = notified w /\ user_calls w1 = user_calls w.
Proof.
  unfold S3Request.init. unfold_monad. split_ifs;
    try (destruct (s3_client_make_meta_request E _); cbn);
    repeat split; try lia; try done; intros i Hi;
    rewrite ?lookup_alter_ne, ?lookup_insert_ne by lia; done.
Qed.

(** ** Construction of a client *)

Lemma S3Client_init_typed E a w :
  S3Client.well_typed a = true ->
  S3Client.init E a w =
    match s3_client_new E (S3Client.native_args E (S (next_addr w)) a) with
    | Ok b => (Ok (next_addr w), client_built E a b w)
    | Raise e => (Raise e, (S3Client.init E a w).2)
    end.
Proof.
  unfold S3Client.init, S3Client.well_typed. unfold_monad.
  intros Ht. repeat (apply andb_prop in Ht as [Ht ?]).
  rewrite Ht. cbn.
  repeat match goal with H : _ = true |- _ => rewrite H; clear H; cbn end.
  unfold S3Client.native_args.
  destruct (s3_client_new E _) as [b|e] eqn:Hn; cbn; [|done].
  unfold client_built, with_clients, with_native_calls; cbn. do 2 f_equal.
  rewrite !alter_insert_eq. done.
Qed.

Lemma S3Client_init_ill_typed E a w :
  S3Client.well_typed a = false ->
  (S3Client.init E a w).1 = Raise AssertionError /\
  native_calls (S3Client.init E a w).2 = native_calls w.
Proof.
  unfold S3Client.init, S3Client.well_typed. unfold_monad.
  intros Ht. split_ifs; done.
Qed.

Lemma S3Client_init_native_calls E a w :
  S3Client.well_typed a = true ->
  native_calls (S3Client.init E a w).2 =
    (native_calls w ++ [CallS3ClientNew (S3Client.native_args E (S (next_addr w)) a)])%list.
Proof.
  unfold S3Client.init, S3Client.well_typed. unfold_monad.
  intros Ht. repeat (apply andb_prop in Ht as [Ht ?]).
  rewrite Ht. cbn.
  repeat match goal with H : _ = true |- _ => rewrite H; clear H; cbn end.
  unfold S3Client.native_args.
  destruct (s3_client_new E _) as [b|e] eqn:Hn; cbn; done.
Qed.

Lemma S3Client_init_frame E a w :
  let w1 := (S3Client.init E a w).2 in
  (next_addr w <= next_addr w1)%nat /\
  requests w1 = requests w /\
  (forall i, (i < next_addr w)%nat -> clients w1 !! i = clients w !! i) /\
  (forall i, (i < next_addr w)%nat -> futures w1 !! i = futures w !! i) /\
  notified w1 = notified w /\ user_calls w1 = user_calls w.
Proof.
  unfold S3Client.init. unfold_monad. split_ifs;
    try (destruct (s3_client_new E _); cbn);
    repeat split; try lia; try done; intros i Hi;
    rewrite ?lookup_alter_ne, ?lookup_insert_ne by lia; done.
Qed.

(** ** The futures *)

Lemma resolve_pending fut o w :
  futures w !! fut = Some Pending ->
  Future.resolve fut o w =
    (Ok tt, with_notified (notified w ++ [(fut, o)])
              (with_futures (<[fut := Finished o]> (futures w)) w)).
Proof. unfold Future.resolve. intros ->. done. Qed.

Lemma resolve_not_pending fut o w :
  futures w !! fut <> Some Pending ->
  (Future.resolve fut o w).2 = w /\ is_Ok (Future.resolve fut o w).1 = false.
Proof.
  unfold Future.resolve. intros H.
  destruct (futures w !! fut) as [[]|]; try done.
Qed.

(** A resolution touches one future only, and nothing but futures and the
    notification log. *)
Lemma resolve_frame fut o w :
  let w1 := (Future.resolve fut o w).2 in
  (forall i, i <> fut -> futures w1 !! i = futures w !! i) /\
  clients w1 = clients w /\ requests w1 = requests w /\
  next_addr w1 = next_addr w /\ user_calls w1 = user_calls w /\
  native_calls w1 = native_calls w /\
  (forall i, i <> fut -> Future.fired i w1 = Future.fired i w).
Proof.
  unfold Future.resolve.
  destruct (futures w !! fut) as [[]|]; cbn; repeat split; try done.
  - intros i Hi. by rewrite lookup_insert_ne.
  - intros i Hi. unfold Future.fired; cbn.
    rewrite filter_app, length_app.
    rewrite filter_cons_False, filter_nil by (cbn; congruence). cbn. lia.
Qed.

Lemma fired_resolve_pending fut o w :
  futures w !! fut = Some Pending ->
  Future.fired fut (Future.resolve fut o w).2 = S (Future.fired fut w).
Proof.
  intros H. rewrite resolve_pending by done. unfold Future.fired; cbn.
  rewrite filter_app, length_app.
  rewrite filter_cons_True by done. cbn. lia.
Qed.

Lemma getattr_ok {A} self (slot : S3RequestSlots.t -> option A) r v w :
  requests w !! self = Some r -> slot r = Some v ->
  S3Request.getattr self slot w = (Ok v, w).
Proof. unfold S3Request.getattr. intros -> ->. done. Qed.

Lemma getattr_world {A} self (slot : S3RequestSlots.t -> option A) w :
  (S3Request.getattr self slot w).2 = w.
Proof. unfold S3Request.getattr. repeat case_match; done. Qed.

(** The native module has no attribute [exceptions]. *)
Lemma no_exceptions_attribute w :
  _awscrt.getattr "exceptions" w = (Raise AttributeError, w).
Proof. reflexivity. Qed.

(** [_on_finish] on a request whose finished future is [fut]: a resolution
    of [fut] for the code 0, and for any other code an [AttributeError]
    that leaves the store as it is. *)
Lemma on_finish_eq self r fut error_code w :
  requests w !! self = Some r ->
  S3RequestSlots._finished_future r = Some fut ->
  S3Request._on_finish self error_code w =
    (if error_code =? 0
     then Future.resolve fut (Ok (PyStr "what?")) w
     else (Raise AttributeError, w)).
Proof.
  intros Hr Hf. unfold S3Request._on_finish, truthy.
  destruct (error_code =? 0); cbn; unfold bind;
    rewrite (getattr_ok _ _ _ _ _ Hr Hf), ?no_exceptions_attribute; done.
Qed.

(** A non-zero error code never gets as far as the future, on whatever
    object and in whatever store [_on_finish] is called. *)
Lemma on_finish_error self error_code w :
  error_code <> 0 ->
  (S3Request._on_finish self error_code w).2 = w /\
  is_Ok (S3Request._on_finish self error_code w).1 = false.
Proof.
  intros Hne. unfold S3Request._on_finish, truthy.
  destruct (Z.eqb_spec error_code 0) as [|_]; [done|]. cbn. unfold bind.
  destruct (S3Request.getattr self _ w) as [[fut|e] w1] eqn:Hg;
    pose proof (getattr_world self S3RequestSlots._finished_future w) as Hw;
    rewrite Hg in Hw; cbn in Hw; subst w1; rewrite ?no_exceptions_attribute; done.
Qed.

Lemma on_shutdown_eq self r fut w :
  requests w !! self = Some r ->
  S3RequestSlots._shutdown_future r = Some fut ->
  S3Request._on_shutdown self w = Future.resolve fut (Ok (PyStr "what?")) w.
Proof.
  intros Hr Hf. unfold S3Request._on_shutdown, S3Request.shutdown_future, bind.
  rewrite (getattr_ok _ _ _ _ _ Hr Hf). done.
Qed.

(** A terminal callback that finds the finished future already resolved
    (or cancelled by the caller) raises and leaves the store as it is: the
    future is never resolved a second time. *)
Lemma on_finish_again self r fut error_code w :
  requests w !! self = Some r ->
  S3RequestSlots._finished_future r = Some fut ->
  futures w !! fut <> Some Pending ->
  (S3Request._on_finish self error_code w).2 = w /\
  is_Ok (S3Request._on_finish self error_code w).1 = false.
Proof.
  intros Hr Hf Hp. rewrite (on_finish_eq _ _ _ _ _ Hr Hf).
  destruct (error_code =? 0); [|done].
  by apply resolve_not_pending.
Qed.

(** C3.  What the terminal callback [_on_finish] does for an error code
    [e], on a request whose finished future is still pending.  For [e = 0]
    it returns and the future is resolved with a result, its waiters
    notified once.  For [e <> 0] the call raises [AttributeError] at the
    lookup of [_awscrt.exceptions]: no exception is built from [e], the
    future is not resolved and stays pending, and nothing else changes. *)
Theorem on_finish_outcomes self r fut error_code w :
  requests w !! self = Some r ->
  S3RequestSlots._finished_future r = Some fut ->
  futures w !! fut = Some Pending ->
  let out := S3Request._on_finish self error_code w in
  (error_code = 0 ->
   out.1 = Ok tt /\
   futures out.2 !! fut = Some (Finished (Ok (PyStr "what?"))) /\
   Future.fired fut out.2 = S (Future.fired fut w)) /\
  (error_code <> 0 ->
   out = (Raise AttributeError, w) /\
   futures out.2 !! fut = Some Pending /\
   Future.fired fut out.2 = Future.fired fut w) /\
  ((exists v, futures out.2 !! fut = Some (Finished (Ok v))) <-> error_code = 0) /\
  (forall e, futures out.2 !! fut <> Some (Finished (Raise e))).
Proof.
  intros Hr Hf Hp out. subst out.
  rewrite (on_finish_eq _ _ _ _ _ Hr Hf).
  destruct (Z.eqb_spec error_code 0) as [->|Hne].
  - pose proof (fired_resolve_pending fut (Ok (PyStr "what?")) w Hp) as Hn.
    rewrite resolve_pending in Hn |- * by done. cbn in Hn |- *.
    rewrite lookup_insert_eq.
    split; [done|]. split; [done|]. split; [split; eauto|]. done.
  - cbn. rewrite Hp.
    split; [done|]. split; [done|].
    split; [split; [intros [v [=]]|done]|]. done.
Qed.

(** C3 at the sample request: the terminal callback with error code 14
    raises [AttributeError] and the finished future is still pending. *)
Lemma on_finish_outcomes_witness :
  S3Request._on_finish 2 14 Sample.with_request
    = (Raise AttributeError, Sample.with_request) /\
  futures Sample.with_request !! 3%nat = Some Pending.
Proof.
  pose proof (on_finish_outcomes 2
    (S3RequestSlots.Make (Some (PyFunc 300)) (Some PyNone) (Some 3%nat) (Some 4%nat)
       (Some (PyObj S3ClientClass 0)) (Some (PyObj (OtherClass "PyCapsule") 1)))
    3 14 Sample.with_request) as H.
  destruct H as (_ & H & _).
  - vm_compute. reflexivity.
  - reflexivity.
  - vm_compute. reflexivity.
  - split; [apply H; lia|]. vm_compute. reflexivity.
Defined.

(** ** What a callback can touch *)

Lemma call_user_frame E f kwargs w :
  let w1 := (S3Request.call_user E f kwargs w).2 in
  futures w1 = futures w /\ clients w1 = clients w /\ requests w1 = requests w /\
  next_addr w1 = next_addr w /\ notified w1 = notified w.
Proof. unfold S3Request.call_user. destruct f; done. Qed.

Lemma invoke_objects E cb ev w :
  let w1 := (invoke E cb ev w).2 in
  clients w1 = clients w /\ requests w1 = requests w /\ next_addr w1 = next_addr w.
Proof.
  destruct cb as [fut|self []], ev; cbn; try done.
  - unfold S3Client.on_shutdown, Future.set_result.
    pose proof (resolve_frame fut (Ok PyNone) w) as H. cbv zeta in H. tauto.
  - unfold S3Request._on_headers, bind.
    destruct (S3Request.getattr self _ w) as [[cb|e] w1] eqn:Hg;
      pose proof (getattr_world self S3RequestSlots._on_headers_cb w) as Hw;
      rewrite Hg in Hw; cbn in Hw; subst w1; [|done].
    destruct (truthy cb); [|done].
    pose proof (call_user_frame E cb [("status_code", status_code); ("headers", headers)] w) as H.
    cbv zeta in H. tauto.
  - unfold S3Request._on_body, bind.
    destruct (S3Request.getattr self _ w) as [[cb|e] w1] eqn:Hg;
      pose proof (getattr_world self S3RequestSlots._on_body_cb w) as Hw;
      rewrite Hg in Hw; cbn in Hw; subst w1; [|done].
    destruct (truthy cb); [|done].
    pose proof (call_user_frame E cb [("chunk", chunk)] w) as H.
    cbv zeta in H. tauto.
  - unfold S3Request._on_finish, bind.
    destruct (truthy (PyInt error_code));
    destruct (S3Request.getattr self _ w) as [[fut|e] w1] eqn:Hg;
      pose proof (getattr_world self S3RequestSlots._finished_future w) as Hw;
      rewrite Hg in Hw; cbn in Hw; subst w1; try done.
    + pose proof (resolve_frame fut (Ok (PyStr "what?")) w) as H.
      cbv zeta in H. unfold Future.set_result. tauto.
  - unfold S3Request._on_shutdown, S3Request.shutdown_future, bind.
    destruct (S3Request.getattr self _ w) as [[fut|e] w1] eqn:Hg;
      pose proof (getattr_world self S3RequestSlots._shutdown_future w) as Hw;
      rewrite Hg in Hw; cbn in Hw; subst w1; try done.
    pose proof (resolve_frame fut (Ok (PyStr "what?")) w) as H.
    cbv zeta in H. unfold Future.set_result. tauto.
Qed.

(** No operation writes below the allocation pointer of the object
    store: objects that exist are never reassigned or removed. *)
Lemma perform_objects E op w :
  let w1 := perform E op w in
  (next_addr w <= next_addr w1)%nat /\
  (forall i, (i < next_addr w)%nat -> requests w1 !! i = requests w !! i) /\
  (forall i, (i < next_addr w)%nat -> clients w1 !! i = clients w !! i).
Proof.
  destruct op as [kw|c kw|cb ev|self|self]; unfold perform; cbv zeta.
  - unfold S3Client.new, bind, lift.
    destruct (S3Client.bind_args kw) as [a|e]; cbv beta iota; [|done].
    pose proof (S3Client_init_frame E a w) as H. cbv zeta in H.
    destruct H as (? & -> & ? & _). done.
  - unfold S3Client.make_request.
    destruct (keywords_ok _ _ kw); [|done].
    match goal with |- context [S3Request.init E ?a w] =>
      pose proof (S3Request_init_frame E a w) as H end.
    cbv zeta in H. destruct H as (? & -> & ? & _). done.
  - pose proof (invoke_objects E cb ev w) as H. cbv zeta in H.
    destruct H as (-> & -> & ->). done.
  - unfold S3Request.finished_future. rewrite getattr_world. done.
  - unfold S3Request.shutdown_future. rewrite getattr_world. done.
Qed.

Lemma perform_all_objects E ops : forall w,
  let w1 := perform_all E ops w in
  (next_addr w <= next_addr w1)%nat /\
  (forall i, (i < next_addr w)%nat -> requests w1 !! i = requests w !! i) /\
  (forall i, (i < next_addr w)%nat -> clients w1 !! i = clients w !! i).
Proof.
  induction ops as [|op ops IH]; intros w; cbv zeta; [done|].
  change (perform_all E (op :: ops) w) with (perform_all E ops (perform E op w)).
  pose proof (perform_objects E op w) as (Hn & Hr & Hc).
  destruct (IH (perform E op w)) as (Hn' & Hr' & Hc').
  split; [lia|]. split; intros i Hi.
  - rewrite Hr' by lia. by apply Hr.
  - rewrite Hc' by lia. by apply Hc.
Qed.

(** C9.  A constructed request holds its client in [_client] from
    construction on: whatever operations follow, the slot still holds the
    client that was passed, and the client object it refers to is still in
    the store. *)
Theorem request_keeps_client E a w0 self w1 :
  S3Request.init E a w0 = (Ok self, w1) ->
  forall ops,
    let w := perform_all E ops w1 in
    S3RequestSlots._client <$> (requests w !! self) = Some (Some (S3Request.client a)) /\
    (exists c, S3Request.client a = PyObj S3ClientClass c /\
       forall slots, (c < next_addr w0)%nat -> clients w0 !! c = Some slots ->
         clients w !! c = Some slots).
Proof.
  intros Hi ops w.
  destruct (S3Request_init_inv _ _ _ _ _ Hi) as (Ht & -> & b & Hb & ->).
  destruct (perform_all_objects E ops (request_built a b w0)) as (Hn & Hr & Hc).
  fold w in Hn, Hr, Hc. cbn in Hn, Hr, Hc. split.
  - rewrite Hr by lia. rewrite lookup_insert_eq. done.
  - unfold S3Request.well_typed in Ht.
    repeat (apply andb_prop in Ht as [Ht ?]).
    destruct (S3Request.client a) as [| | | | | |cls c| |]; try done.
    unfold isinstance in Ht. apply bool_decide_eq_true in Ht as <-.
    exists c. split; [done|]. intros slots Hlt Hs.
    rewrite Hc by lia. done.
Qed.

(** C9 at the sample request, after a header, the terminal and the
    shutdown callback. *)
Lemma request_keeps_client_witness :
  S3RequestSlots._client <$>
    (requests (perform_all Sample.env
                 [Callback (BoundMethod 2 M_on_headers) (Headers (PyInt 200) PyNone);
                  Callback (BoundMethod 2 M_on_finish) (Finish 0);
                  Callback (BoundMethod 2 M_on_shutdown) Shutdown]
                 Sample.with_request) !! 2%nat)
  = Some (Some (PyObj S3ClientClass 0)).
Proof.
  refine (proj1 (request_keeps_client Sample.env
    {| S3Request.client := PyObj S3ClientClass 0;
       S3Request.request := PyObj HttpRequest 200;
       S3Request.type := PyEnum GET_OBJECT;
       S3Request.on_headers := PyFunc 300;
       S3Request.on_body := PyNone |}
    Sample.with_client 2 Sample.with_request _ _)).
  vm_compute. reflexivity.
Defined.

(** C8.  A constructed request has two distinct futures.  The terminal
    callback [_on_finish], whatever the error code, leaves every future but
    the finished future as it was, the shutdown future among them, and it
    resolves the finished future (when pending) for the code 0; the
    shutdown callback [_on_shutdown] resolves the shutdown future (when
    pending) and leaves every other future, the finished future among them,
    as it was. *)
Theorem finished_and_shutdown_futures_separate E a w0 self w1 :
  S3Request.init E a w0 = (Ok self, w1) ->
  exists fin shut,
    S3Request.finished_future self w1 = (Ok fin, w1) /\
    S3Request.shutdown_future self w1 = (Ok shut, w1) /\
    fin <> shut /\
    forall w, requests w !! self = requests w1 !! self ->
      (forall error_code,
         let w' := (S3Request._on_finish self error_code w).2 in
         (futures w !! fin = Some Pending -> error_code = 0 ->
          futures w' !! fin = Some (Finished (Ok (PyStr "what?")))) /\
         futures w' !! shut = futures w !! shut /\
         Future.fired shut w' = Future.fired shut w /\
         (forall i, i <> fin -> futures w' !! i = futures w !! i) /\
         (forall i, i <> fin -> Future.fired i w' = Future.fired i w)) /\
      (let w' := (S3Request._on_shutdown self w).2 in
       (futures w !! shut = Some Pending ->
        futures w' !! shut = Some (Finished (Ok (PyStr "what?")))) /\
       futures w' !! fin = futures w !! fin /\
       Future.fired fin w' = Future.fired fin w /\
       (forall i, i <> shut -> futures w' !! i = futures w !! i) /\
       (forall i, i <> shut -> Future.fired i w' = Future.fired i w)).
Proof.
  intros Hi.
  destruct (S3Request_init_inv _ _ _ _ _ Hi) as (Ht & -> & b & Hb & ->).
  set (self := next_addr w0).
  set (r := S3RequestSlots.Make (Some (S3Request.on_headers a))
              (Some (S3Request.on_body a)) (Some (S self)) (Some (S (S self)))
              (Some (S3Request.client a)) (Some b)).
  assert (Hr : requests (request_built a b w0) !! self = Some r)
    by (cbn; apply lookup_insert_eq).
  exists (S self), (S (S self)).
  split; [by apply (getattr_ok _ _ r)|].
  split; [by apply (getattr_ok _ _ r)|].
  split; [lia|].
  intros w Hw. rewrite Hr in Hw. split.
  - intros error_code w'. subst w'.
    rewrite (on_finish_eq self r (S self) error_code w Hw eq_refl).
    destruct (Z.eqb_spec error_code 0) as [->|Hne].
    + pose proof (resolve_frame (S self) (Ok (PyStr "what?")) w)
        as (Hf & _ & _ & _ & _ & _ & Hn).
      split; [|split; [|split; [|split]]].
      * intros Hpend _. rewrite resolve_pending by done. cbn.
        by rewrite lookup_insert_eq.
      * apply Hf. lia.
      * apply Hn. lia.
      * exact Hf.
      * exact Hn.
    + cbn. repeat split; done.
  - cbv zeta.
    rewrite (on_shutdown_eq self r (S (S self)) w Hw eq_refl).
    pose proof (resolve_frame (S (S self)) (Ok (PyStr "what?")) w)
      as (Hf & _ & _ & _ & _ & _ & Hn).
    split; [|split; [|split; [|split]]].
    + intros Hpend. rewrite resolve_pending by done. cbn.
      by rewrite lookup_insert_eq.
    + apply Hf. lia.
    + apply Hn. lia.
    + exact Hf.
    + exact Hn.
Qed.

(** C8 at the sample request. *)
Lemma finished_and_shutdown_futures_separate_witness :
  exists fin shut,
    S3Request.finished_future 2 Sample.with_request = (Ok fin, Sample.with_request) /\
    S3Request.shutdown_future 2 Sample.with_request = (Ok shut, Sample.with_request) /\
    fin <> shut.
Proof.
  destruct (finished_and_shutdown_futures_separate Sample.env
    {| S3Request.client := PyObj S3ClientClass 0;
       S3Request.request := PyObj HttpRequest 200;
       S3Request.type := PyEnum GET_OBJECT;
       S3Request.on_headers := PyFunc 300;
       S3Request.on_body := PyNone |}
    Sample.with_client 2 Sample.with_request)
    as (fin & shut & H1 & H2 & H3 & _).
  - vm_compute. reflexivity.
  - exists fin, shut. auto.
Defined.

(** ** Client construction *)

Lemma S3Client_new_inv E kw w self w1 :
  S3Client.new E kw w = (Ok self, w1) ->
  exists a b,
    S3Client.bind_args kw = Ok a /\ S3Client.well_typed a = true /\
    self = next_addr w /\
    s3_client_new E (S3Client.native_args E (S self) a) = Ok b /\
    w1 = client_built E a b w.
Proof.
  unfold S3Client.new, bind, lift.
  destruct (S3Client.bind_args kw) as [a|e] eqn:Hb; cbv beta iota; [|done].
  destruct (S3Client.well_typed a) eqn:Ht.
  - rewrite S3Client_init_typed by done.
    destruct (s3_client_new E _) as [b|e] eqn:Hn; [|done].
    intros [= <- <-]. eauto 10.
  - pose proof (S3Client_init_ill_typed E a w Ht) as [H _].
    intros Heq. rewrite Heq in H. done.
Qed.

(** C10.  When the constructor returns a client, the native client was
    created by one call of [_awscrt.s3_client_new] whose credentials
    provider is the default chain built from the given bootstrap if the
    [credential_provider] argument was [None] (or anything false), and the
    given provider itself otherwise. *)
Theorem default_credentials_provider E kw w self w1 :
  S3Client.new E kw w = (Ok self, w1) ->
  let given := kwarg kw "credential_provider" PyNone in
  exists n,
    native_calls w1 = (native_calls w ++ [CallS3ClientNew n])%list /\
    n_bootstrap n = kwarg kw "bootstrap" PyNone /\
    (truthy given = false ->
     n_credential_provider n = new_default_chain E (kwarg kw "bootstrap" PyNone)) /\
    (truthy given = true -> n_credential_provider n = given) /\
    (kw !! "credential_provider" = None \/ given = PyNone ->
     n_credential_provider n = new_default_chain E (kwarg kw "bootstrap" PyNone)) /\
    (forall addr, given = PyObj AwsCredentialsProvider addr ->
     n_credential_provider n = given).
Proof.
  intros Hn given.
  destruct (S3Client_new_inv _ _ _ _ _ Hn) as (a & b & Hb & Ht & -> & Hnat & ->).
  unfold S3Client.bind_args in Hb.
  destruct (keywords_ok _ _ kw); [|done]. injection Hb as <-.
  eexists. split; [reflexivity|]. cbn.
  unfold S3Client.effective_provider; cbn. fold given.
  split; [done|].
  split; [intros ->; done|].
  split; [intros ->; done|].
  split.
  - intros [Hk| ->]; [|done].
    unfold given, kwarg. rewrite Hk. done.
  - intros addr ->. done.
Qed.

(** C10 at the sample client, constructed without a credentials
    provider. *)
Lemma default_credentials_provider_witness :
  exists n,
    native_calls Sample.with_client = [CallS3ClientNew n] /\
    n_credential_provider n = PyObj AwsCredentialsProvider 1000.
Proof.
  destruct (default_credentials_provider Sample.env Sample.client_kwargs
              empty_world 0 Sample.with_client)
    as (n & H1 & _ & H2 & _).
  - vm_compute. reflexivity.
  - exists n. split; [exact H1|]. apply H2. vm_compute. reflexivity.
Defined.

(** C2 (as the code has it).  Construction checks the types of its
    arguments and nothing else.  If an assertion fails the constructor
    raises [AssertionError] and the native constructor is not called;
    otherwise the native constructor is called once with part size,
    throughput target and connection count as given, whatever their sign,
    and a client is returned exactly when that call returns; options left
    out are passed as 0. *)
Theorem construction_checks_types_only E a w :
  (S3Client.well_typed a = false ->
   (S3Client.init E a w).1 = Raise AssertionError /\
   native_calls (S3Client.init E a w).2 = native_calls w) /\
  (S3Client.well_typed a = true ->
   exists n,
     native_calls (S3Client.init E a w).2 = (native_calls w ++ [CallS3ClientNew n])%list /\
     n_part_size n = S3Client.part_size a /\
     n_throughput_target_gbps n = S3Client.throughput_target_gbps a /\
     n_num_connections_per_vip n = S3Client.num_connections_per_vip a /\
     n_tls_connection_options n = S3Client.tls_connection_options a /\
     (S3Client.init E a w).1 =
       match s3_client_new E n with
       | Ok _ => Ok (next_addr w)
       | Raise e => Raise e
       end) /\
  (forall kw a', S3Client.bind_args kw = Ok a' ->
     (kw !! "part_size" = None -> S3Client.part_size a' = PyInt 0) /\
     (kw !! "throughput_target_gbps" = None ->
      S3Client.throughput_target_gbps a' = PyInt 0) /\
     (kw !! "num_connections_per_vip" = None ->
      S3Client.num_connections_per_vip a' = PyInt 0)) /\
  (isinstance (PyInt 0) TInt = true).
Proof.
  split; [apply S3Client_init_ill_typed|].
  split.
  - intros Ht. exists (S3Client.native_args E (S (next_addr w)) a).
    split; [by apply S3Client_init_native_calls|].
    repeat (split; [done|]).
    rewrite S3Client_init_typed by done.
    destruct (s3_client_new E _); done.
  - split; [|done].
    intros kw a'. unfold S3Client.bind_args.
    destruct (keywords_ok _ _ kw); [|done]. intros [= <-]. cbn.
    unfold kwarg. repeat split; intros ->; done.
Qed.

(** C2, counterexample: with a well-typed configuration whose
    part size, throughput target and connection count are all negative, and
    a native constructor that returns, a client is produced; and TLS
    options of the wrong type fail with [AssertionError], which is not a
    [ConfigurationError]. *)
Lemma negative_configuration_accepted :
  negative (kwarg Sample.negative_kwargs "part_size" (PyInt 0)) = true /\
  negative (kwarg Sample.negative_kwargs "throughput_target_gbps" (PyInt 0)) = true /\
  negative (kwarg Sample.negative_kwargs "num_connections_per_vip" (PyInt 0)) = true /\
  (S3Client.new Sample.env Sample.negative_kwargs empty_world).1 = Ok 0%nat /\
  (S3Client.new Sample.env Sample.bad_tls_kwargs empty_world).1 = Raise AssertionError /\
  bool_decide (AssertionError = ConfigurationError) = false.
Proof. vm_compute. repeat split; reflexivity. Qed.

(** ** Delivery of events to a request *)

Lemma invoke_user_calls E self r h b ev w :
  requests w !! self = Some r ->
  S3RequestSlots._on_headers_cb r = Some h ->
  S3RequestSlots._on_body_cb r = Some b ->
  callable h || is_None h = true ->
  callable b || is_None b = true ->
  let out := invoke E (handler self ev) ev w in
  user_calls out.2 = (user_calls w ++ expected_calls h b [ev])%list /\
  requests out.2 = requests w /\
  (discarded h b ev = true -> out = (Ok tt, w)) /\
  (is_data ev = true -> futures out.2 = futures w /\ notified out.2 = notified w).
Proof.
  intros Hr Hh Hb Hch Hcb out. subst out.
  destruct ev as [status_code headers|chunk|error_code|]; cbn.
  - unfold S3Request._on_headers, bind.
    rewrite (getattr_ok _ _ _ _ _ Hr Hh).
    destruct h as [| | | | | | | |f []]; try done; cbn; rewrite ?app_nil_r; done.
  - unfold S3Request._on_body, bind.
    rewrite (getattr_ok _ _ _ _ _ Hr Hb).
    destruct b as [| | | | | | | |f []]; try done; cbn; rewrite ?app_nil_r; done.
  - rewrite app_nil_r.
    pose proof (invoke_objects E (BoundMethod self M_on_finish) (Finish error_code) w)
      as (_ & Hq & _). cbn in Hq. split; [|done].
    unfold S3Request._on_finish, bind.
    destruct (truthy (PyInt error_code));
      destruct (S3Request.getattr self _ w) as [[fut|e] w1] eqn:Hg;
      pose proof (getattr_world self S3RequestSlots._finished_future w) as Hw;
      rewrite Hg in Hw; cbn in Hw; subst w1; try done.
    pose proof (resolve_frame fut (Ok (PyStr "what?")) w) as H.
    cbv zeta in H. unfold Future.set_result. tauto.
  - rewrite app_nil_r.
    pose proof (invoke_objects E (BoundMethod self M_on_shutdown) Shutdown w)
      as (_ & Hq & _). cbn in Hq. split; [|done].
    unfold S3Request._on_shutdown, S3Request.shutdown_future, bind.
    destruct (S3Request.getattr self _ w) as [[fut|e] w1] eqn:Hg;
      pose proof (getattr_world self S3RequestSlots._shutdown_future w) as Hw;
      rewrite Hg in Hw; cbn in Hw; subst w1; try done.
    pose proof (resolve_frame fut (Ok (PyStr "what?")) w) as H.
    cbv zeta in H. unfold Future.set_result. tauto.
Qed.

Lemma deliver_user_calls E self r h b evs : forall w,
  requests w !! self = Some r ->
  S3RequestSlots._on_headers_cb r = Some h ->
  S3RequestSlots._on_body_cb r = Some b ->
  callable h || is_None h = true ->
  callable b || is_None b = true ->
  let out := deliver E self evs w in
  user_calls out.2 = (user_calls w ++ expected_calls h b evs)%list /\
  length out.1 = length evs /\
  (forall i ev, evs !! i = Some ev -> discarded h b ev = true ->
     out.1 !! i = Some (Ok tt)) /\
  requests out.2 = requests w /\
  (forallb is_data evs = true ->
   futures out.2 = futures w /\ notified out.2 = notified w).
Proof.
  induction evs as [|ev evs IH]; intros w Hr Hh Hb Hch Hcb; cbv zeta.
  - cbn. rewrite app_nil_r. done.
  - cbn [deliver].
    pose proof (invoke_user_calls E self r h b ev w Hr Hh Hb Hch Hcb)
      as (Hu & Hq & Hd & Hf).
    destruct (invoke E (handler self ev) ev w) as [res w1] eqn:Hi.
    cbn [fst snd] in Hu, Hq, Hd, Hf.
    assert (Hr1 : requests w1 !! self = Some r) by (by rewrite Hq).
    specialize (IH w1 Hr1 Hh Hb Hch Hcb) as (IHu & IHl & IHd & IHq & IHf).
    destruct (deliver E self evs w1) as [rs w2]. cbn [fst snd] in *.
    split; [|split; [|split; [|split]]].
    + rewrite IHu, Hu. unfold expected_calls. cbn [flat_map].
      by rewrite app_nil_r, app_assoc.
    + cbn. by rewrite IHl.
    + intros [|i] ev' Hev Hdis; cbn in Hev |- *.
      * injection Hev as <-. specialize (Hd Hdis). by injection Hd as ->.
      * eauto.
    + congruence.
    + cbn [forallb]. intros Hall. apply andb_prop in Hall as [H1 H2].
      destruct (Hf H1) as [Hf1 Hf2]. destruct (IHf H2) as [-> ->]. done.
Qed.

(** Events delivered one batch after the other. *)
Lemma deliver_app E self evs1 evs2 w :
  deliver E self (evs1 ++ evs2) w =
    ((deliver E self evs1 w).1 ++ (deliver E self evs2 (deliver E self evs1 w).2).1,
     (deliver E self evs2 (deliver E self evs1 w).2).2)%list.
Proof.
  revert w. induction evs1 as [|ev evs1 IH]; intros w.
  - cbn. by destruct (deliver E self evs2 w).
  - cbn [deliver app].
    destruct (invoke E (handler self ev) ev w) as [res w1].
    rewrite IH.
    destruct (deliver E self evs1 w1) as [rs1 w2]. cbn [fst snd].
    by destruct (deliver E self evs2 w2).
Qed.

(** The calls the data events of a Meta-Request give rise to: the header
    call, then the body calls. *)
Lemma expected_calls_data h b header chunks :
  expected_calls h b (data_events header chunks)
  = (header_call h header ++ body_calls b chunks)%list.
Proof.
  unfold expected_calls, data_events. rewrite flat_map_app. f_equal.
  - unfold header_call. destruct header as [[status_code headers]|]; cbn; [|done].
    by rewrite app_nil_r.
  - unfold body_calls. induction chunks as [|chunk chunks IH]; cbn.
    + by destruct (truthy b).
    + rewrite IH. by destruct (truthy b).
Qed.

Lemma data_events_are_data header chunks :
  forallb is_data (data_events header chunks) = true.
Proof.
  unfold data_events. rewrite forallb_app. apply andb_true_intro. split.
  - by destruct header as [[]|].
  - by induction chunks.
Qed.

Lemma keywords_ok_true required optional (kw : gmap string pyval) :
  keywords_ok required optional kw = true <->
  (forall k, is_Some (kw !! k) -> k ∈ (required ++ optional)%list) /\
  (forall k, k ∈ required -> is_Some (kw !! k)).
Proof.
  unfold keywords_ok. rewrite andb_true_iff, !forallb_forall. split.
  - intros [H1 H2]. split.
    + intros k [v Hv]. specialize (H1 k).
      rewrite bool_decide_eq_true in H1. apply H1.
      apply list_elem_of_In. apply (list_elem_of_fmap_2 fst _ (k, v)).
      by apply elem_of_map_to_list.
    + intros k Hk. specialize (H2 k). rewrite bool_decide_eq_true in H2.
      apply H2. by apply list_elem_of_In.
  - intros [H1 H2]. split.
    + intros k Hk. apply bool_decide_eq_true. apply H1.
      apply list_elem_of_In in Hk. apply list_elem_of_fmap in Hk as ([k' v] & -> & Hkv).
      apply elem_of_map_to_list in Hkv. cbn. eauto.
    + intros k Hk. apply bool_decide_eq_true. apply H2. by apply list_elem_of_In.
Qed.

Lemma keywords_ok_only required optional kw k :
  keywords_ok required optional kw = true ->
  k ∉ (required ++ optional)%list -> kw !! k = None.
Proof.
  unfold keywords_ok. intros H Hk. apply andb_prop in H as [H _].
  destruct (kw !! k) as [v|] eqn:Hv; [|done]. exfalso. apply Hk.
  rewrite forallb_forall in H.
  specialize (H k). rewrite bool_decide_eq_true in H. apply H.
  apply list_elem_of_In. apply (list_elem_of_fmap_2 fst _ (k, v)).
  by apply elem_of_map_to_list.
Qed.

(** A submission that succeeds still succeeds, with the same request, when
    callbacks are left out of it. *)
Lemma make_request_omit E c kw kw' w self w1 :
  S3Client.make_request E c kw w = (Ok self, w1) ->
  (forall k, k <> "on_headers" -> k <> "on_body" -> kw' !! k = kw !! k) ->
  (forall k, kw' !! k = None \/ kw' !! k = kw !! k) ->
  (S3Client.make_request E c kw' w).1 = Ok self.
Proof.
  unfold S3Client.make_request. intros Hm Hsame Hsub.
  destruct (keywords_ok _ _ kw) eqn:Hk; [|done].
  apply keywords_ok_true in Hk as [Hk1 Hk2].
  replace (keywords_ok ["request"; "type"] ["on_headers"; "on_body"] kw') with true.
  2: { symmetry. apply keywords_ok_true. split.
       - intros k Hs. apply Hk1. destruct (Hsub k) as [Hn|He].
         + rewrite Hn in Hs. by destruct Hs.
         + by rewrite <- He.
       - intros k Hin. rewrite Hsame; [by apply Hk2| |];
           intros ->; apply list_elem_of_In in Hin; cbn in Hin;
           intuition discriminate. }
  destruct (S3Request_init_inv _ _ _ _ _ Hm) as (Ht & -> & bd & Hb & _).
  unfold S3Request.well_typed in Ht. cbn in Ht.
  repeat (apply andb_prop in Ht as [Ht ?]).
  assert (Hc : forall name, name = "on_headers" \/ name = "on_body" ->
              callable (kwarg kw name PyNone) || is_None (kwarg kw name PyNone) = true ->
              callable (kwarg kw' name PyNone) || is_None (kwarg kw' name PyNone) = true).
  { intros name _ Hn. unfold kwarg in *. destruct (Hsub name) as [->| ->]; done. }
  rewrite S3Request_init_typed.
  - unfold S3Request.native_args in Hb |- *. cbn in Hb |- *.
    unfold kwarg in Hb |- *. rewrite !Hsame by done. rewrite Hb. done.
  - unfold S3Request.well_typed. cbn.
    assert (Hreq : kwarg kw' "request" PyNone = kwarg kw "request" PyNone)
      by (unfold kwarg; by rewrite Hsame).
    rewrite Hreq, Ht, H1, !Hc; auto.
Qed.

(** C5 (as the code has it).  [make_request] takes two optional callbacks,
    [on_headers] and [on_body]; it has no [on_progress] parameter.  Any
    subset of the two may be left out: a submission that succeeds still
    succeeds without them.  For a request it returned and any sequence of
    events the native layer reports, an event whose callback was left out is
    dropped (nothing is called and the adapter returns normally), and a
    callback that was supplied and is true in a boolean context is called
    once per event, in the order of the events.  For events in the order of
    the ordering contract this is the header call, then the body calls
    chunk by chunk, and only then the terminal callback: no future is
    resolved before the last data callback was made, and the terminal
    callback calls no user callback. *)
Theorem optional_callbacks E c kw w0 self w1 :
  S3Client.make_request E c kw w0 = (Ok self, w1) ->
  let h := kwarg kw "on_headers" PyNone in
  let b := kwarg kw "on_body" PyNone in
  kw !! "on_progress" = None /\
  (forall kw',
     (forall k, k <> "on_headers" -> k <> "on_body" -> kw' !! k = kw !! k) ->
     (forall k, kw' !! k = None \/ kw' !! k = kw !! k) ->
     (S3Client.make_request E c kw' w0).1 = Ok self) /\
  forall w, requests w !! self = requests w1 !! self ->
    (forall evs,
       let out := deliver E self evs w in
       user_calls out.2 = (user_calls w ++ expected_calls h b evs)%list /\
       length out.1 = length evs /\
       (forall i ev, evs !! i = Some ev -> discarded h b ev = true ->
          out.1 !! i = Some (Ok tt))) /\
    (forall header chunks error_code,
       let data := deliver E self (data_events header chunks) w in
       let out := deliver E self (in_contract_order header chunks error_code) w in
       user_calls data.2 =
         (user_calls w ++ header_call h header ++ body_calls b chunks)%list /\
       futures data.2 = futures w /\ notified data.2 = notified w /\
       out.2 = (S3Request._on_finish self error_code data.2).2 /\
       user_calls out.2 = user_calls data.2).
Proof.
  intros Hm h b.
  split.
  { unfold S3Client.make_request in Hm.
    destruct (keywords_ok _ _ kw) eqn:Hk; [|done].
    apply (keywords_ok_only _ _ _ _ Hk). intros Hin.
    apply list_elem_of_In in Hin. cbn in Hin. intuition discriminate. }
  split; [intros kw'; by apply (make_request_omit E c kw kw' w0 self w1)|].
  unfold S3Client.make_request in Hm.
  destruct (keywords_ok _ _ kw) eqn:Hk; [|done].
  destruct (S3Request_init_inv _ _ _ _ _ Hm) as (Ht & -> & bd & Hb & ->).
  unfold S3Request.well_typed in Ht. cbn in Ht.
  repeat (apply andb_prop in Ht as [Ht ?]).
  intros w Hw. cbn in Hw. rewrite lookup_insert_eq in Hw.
  split.
  - intros evs.
    destruct (deliver_user_calls E (next_addr w0) _ h b evs w Hw eq_refl eq_refl)
      as (Hu & Hl & Hd & _); done.
  - intros header chunks error_code data out.
    destruct (deliver_user_calls E (next_addr w0) _ h b (data_events header chunks)
                w Hw eq_refl eq_refl) as (Hu & _ & _ & Hq & Hf); [done|done|].
    fold data in Hu, Hq, Hf.
    destruct (Hf (data_events_are_data header chunks)) as [Hfu Hno].
    rewrite expected_calls_data in Hu.
    split; [done|]. split; [done|]. split; [done|].
    assert (Hout : out.2 = (S3Request._on_finish (next_addr w0) error_code data.2).2).
    { unfold out, in_contract_order. rewrite deliver_app. cbn [snd]. fold data.
      cbn [deliver handler invoke].
      by destruct (S3Request._on_finish (next_addr w0) error_code data.2). }
    split; [done|]. rewrite Hout.
    assert (Hrd : requests data.2 !! next_addr w0 = Some
              (S3RequestSlots.Make (Some h) (Some b) (Some (S (next_addr w0)))
                 (Some (S (S (next_addr w0))))
                 (Some (PyObj S3ClientClass c)) (Some bd))).
    { rewrite Hq. exact Hw. }
    pose proof (invoke_user_calls E (next_addr w0) _ h b (Finish error_code) data.2
                  Hrd eq_refl eq_refl) as (Hu' & _); [done|done|].
    cbn in Hu'. by rewrite app_nil_r in Hu'.
Qed.

(** C5 at the sample request, which has [on_headers] and no [on_body]:
    the header event is passed on, the body event is dropped. *)
Lemma optional_callbacks_witness :
  let out := deliver Sample.env 2
               [Headers (PyInt 200) PyNone; Body (PyStr "abc"); Finish 0]
               Sample.with_request in
  user_calls out.2 =
    [UserCall (PyFunc 300) [("status_code", PyInt 200); ("headers", PyNone)]] /\
  out.1 !! 1%nat = Some (Ok tt).
Proof.
  cbv zeta.
  destruct (optional_callbacks Sample.env 0 Sample.request_kwargs
              Sample.with_client 2 Sample.with_request) as (_ & _ & H).
  - vm_compute. reflexivity.
  - destruct (H Sample.with_request eq_refl) as [H1 _].
    destruct (H1 [Headers (PyInt 200) PyNone; Body (PyStr "abc"); Finish 0])
      as (Hu & _ & Hd).
    split.
    + rewrite Hu. vm_compute. reflexivity.
    + apply (Hd 1%nat (Body (PyStr "abc"))); reflexivity.
Defined.

(** C5, counterexample: a submission that supplies [on_progress] is
    refused with [TypeError], no request is created and the native layer is
    not called, while the same submission without it succeeds; and a
    submission that supplies as [on_body] a callable that is false in a
    boolean context is accepted, but a body chunk reported to that request
    is dropped without the callback being called. *)
Lemma on_progress_not_accepted :
  (S3Client.make_request Sample.env 0 Sample.progress_kwargs Sample.with_client).1
    = Raise TypeError /\
  (S3Client.make_request Sample.env 0 Sample.progress_kwargs Sample.with_client).2
    = Sample.with_client /\
  (S3Client.make_request Sample.env 0 Sample.request_kwargs Sample.with_client).1
    = Ok 2%nat /\
  callable (PyCallable 302 false) = true /\
  (S3Client.make_request Sample.env 0 Sample.false_callback_kwargs
     Sample.with_client).1 = Ok 2%nat /\
  deliver Sample.env 2 [Body (PyStr "abc")]
    (S3Client.make_request Sample.env 0 Sample.false_callback_kwargs
       Sample.with_client).2
  = ([Ok tt],
     (S3Client.make_request Sample.env 0 Sample.false_callback_kwargs
        Sample.with_client).2) /\
  user_calls
    (S3Client.make_request Sample.env 0 Sample.false_callback_kwargs
       Sample.with_client).2 = [].
Proof. vm_compute. repeat split; reflexivity. Qed.

Import PartScheduler.

(** ** The Part Scheduler *)

(** How many of the ranges of [l] hold byte [x]. *)
Lemma covering_cons x r l :
  length (filter (fun r => contains x r = true) (r :: l)) =
  ((if contains x r then 1 else 0) + length (filter (fun r => contains x r = true) l))%nat.
Proof.
  destruct (contains x r) eqn:Hc.
  - rewrite filter_cons_True by done. done.
  - rewrite filter_cons_False by (rewrite Hc; done). done.
Qed.

(** The ranges planned from [start]: they are chained from [start] to
    [size], each lies in [[start, size]], is at most [part_size] long and is
    not empty unless nothing is left; each byte of [[start, size)] is in
    exactly one of them and no byte before [start] is in any. *)
Lemma ranges_spec start size part_size :
  0 < part_size -> start <= size ->
  let l := ranges start size part_size in
  contiguous start l = true /\
  snd <$> last l = Some size /\
  Forall (fun r => start <= r.1 /\ r.1 <= r.2 /\ r.2 <= size /\
                   length_of r <= part_size /\ (start < size -> r.1 < r.2)) l /\
  (forall x, start <= x < size ->
     length (filter (fun r => contains x r = true) l) = 1%nat) /\
  (forall x, x < start \/ size <= x ->
     length (filter (fun r => contains x r = true) l) = 0%nat) /\
  length_of <$> last l =
    Some (if ((size - start) mod part_size =? 0) && (start <? size)
          then part_size else (size - start) mod part_size) /\
  (forall i j r1 r2, (i < j)%nat -> l !! i = Some r1 -> l !! j = Some r2 ->
     r1.2 <= r2.1).
Proof.
  funelim (ranges start size part_size); intros Hp Hs; cbv zeta.
  - (* a part of full size, then the rest *)
    clear Heqcall.
    pose proof (proj2 a) as Hlt. clear Heq.
    specialize (H Hp ltac:(lia)). cbv zeta in H.
    destruct H as (Hc & Hl & Hf & Hin & Hout & Hlast & Hord).
    set (l := ranges (start + part_size) size part_size) in *.
    assert (Hne : l <> []) by (intros E; rewrite E in Hl; discriminate).
    split; [cbn; rewrite Z.eqb_refl; exact Hc|].
    split; [destruct l; [done|exact Hl]|].
    split.
    { constructor.
      - unfold length_of; cbn. lia.
      - eapply Forall_impl; [exact Hf|]. cbn. intros r. lia. }
    split.
    { intros x Hx. rewrite covering_cons. unfold contains at 1; cbn.
      destruct (Z_lt_dec x (start + part_size)).
      - rewrite Hout by lia.
        replace (start <=? x) with true by lia.
        replace (x <? start + part_size) with true by lia. done.
      - rewrite Hin by lia.
        replace (x <? start + part_size) with false by lia.
        rewrite andb_false_r. done. }
    split.
    { intros x Hx. rewrite covering_cons. unfold contains at 1; cbn.
      rewrite Hout by lia.
      destruct Hx.
      - replace (start <=? x) with false by lia. done.
      - replace (x <? start + part_size) with false by lia.
        rewrite andb_false_r. done. }
    split.
    { destruct l; [done|]. cbn [last] in Hlast |- *. rewrite Hlast.
      replace (size - (start + part_size)) with (size - start + (-1) * part_size) by lia.
      rewrite Z_mod_plus_full.
      replace (start + part_size <? size) with true by lia.
      replace (start <? size) with true by lia. done. }
    { intros [|i] [|j] r1 r2 Hij Hi Hj; try lia; cbn in Hi, Hj.
      - injection Hi as <-. cbn.
        apply list_elem_of_lookup_2 in Hj.
        rewrite Forall_forall in Hf. specialize (Hf _ Hj). lia.
      - eapply (Hord i j); [lia|done|done]. }
  - (* what is left fits in one part *)
    clear Heqcall Heq.
    assert (Hle : size - start <= part_size) by lia.
    split; [cbn; by rewrite Z.eqb_refl|].
    split; [done|].
    split; [repeat constructor; unfold length_of; cbn; lia|].
    split.
    { intros x Hx. rewrite covering_cons. unfold contains; cbn.
      replace (start <=? x) with true by lia.
      replace (x <? size) with true by lia. done. }
    split.
    { intros x Hx. rewrite covering_cons. unfold contains; cbn.
      destruct Hx.
      - replace (start <=? x) with false by lia. done.
      - replace (x <? size) with false by lia. rewrite andb_false_r. done. }
    split.
    { cbn. unfold length_of; cbn. f_equal.
      destruct (Z.eq_dec (size - start) part_size) as [E|E].
      - rewrite E, Z_mod_same_full. cbn.
        replace (start <? size) with true by lia. done.
      - rewrite Z.mod_small by lia.
        destruct (Z.eqb_spec (size - start) 0) as [E0|E0]; cbn.
        + replace (start <? size) with false by lia. done.
        + done. }
    { intros [|i] [|j] r1 r2 Hij Hi Hj; try lia; cbn in Hi, Hj; done. }
Qed.

(** C6.  For every object size [size] and part size [part_size > 0] the
    planned ranges partition [[0, size)]: they start at 0, each starts where
    the one before ends, the last ends at [size], they ascend without
    overlap, every byte of the object lies in exactly one range and no range
    holds any other byte; each is at most [part_size] long, and the last is
    [size mod part_size] long, or [part_size] when that is 0 and the object
    is not empty.  A 12 MiB object in 5 MiB parts is planned as three
    ranges. *)
Theorem plan_partitions_object size part_size :
  0 <= size -> 0 < part_size ->
  let l := plan size part_size in
  contiguous 0 l = true /\
  snd <$> last l = Some size /\
  Forall (fun r => 0 <= r.1 /\ r.1 <= r.2 /\ r.2 <= size /\
                   length_of r <= part_size /\ (0 < size -> r.1 < r.2)) l /\
  (forall x, 0 <= x < size ->
     length (filter (fun r => contains x r = true) l) = 1%nat) /\
  (forall x, x < 0 \/ size <= x ->
     length (filter (fun r => contains x r = true) l) = 0%nat) /\
  (forall i j r1 r2, (i < j)%nat -> l !! i = Some r1 -> l !! j = Some r2 ->
     r1.2 <= r2.1) /\
  length_of <$> last l =
    Some (if (size mod part_size =? 0) && (0 <? size)
          then part_size else size mod part_size) /\
  plan (12 * Sample.MiB) (5 * Sample.MiB) =
    [(0, 5 * Sample.MiB); (5 * Sample.MiB, 10 * Sample.MiB);
     (10 * Sample.MiB, 12 * Sample.MiB)].
Proof.
  intros Hs Hp l.
  destruct (ranges_spec 0 size part_size Hp Hs)
    as (Hc & Hl & Hf & Hin & Hout & Hlast & Hord).
  rewrite Z.sub_0_r in Hlast.
  repeat split; try assumption.
Qed.

(** C6 at 12 MiB in parts of 5 MiB: the last part has 2 MiB. *)
Lemma plan_partitions_object_witness :
  0 <= 12 * Sample.MiB /\ 0 < 5 * Sample.MiB /\
  length_of <$> last (plan (12 * Sample.MiB) (5 * Sample.MiB)) = Some (2 * Sample.MiB).
Proof.
  split; [unfold Sample.MiB; lia|]. split; [unfold Sample.MiB; lia|].
  destruct (plan_partitions_object (12 * Sample.MiB) (5 * Sample.MiB))
    as (_ & _ & _ & _ & _ & _ & H & _).
  - unfold Sample.MiB; lia.
  - unfold Sample.MiB; lia.
  - rewrite H. vm_compute. reflexivity.
Defined.

(** ** Resolutions of a future *)

Lemma fired_same fut w w' :
  notified w' = notified w -> Future.fired fut w' = Future.fired fut w.
Proof. unfold Future.fired. by intros ->. Qed.

Lemma resolve_done fut o s w :
  futures w !! fut = Some s -> s <> Pending ->
  Future.resolve fut o w = (Raise InvalidStateError, w).
Proof. unfold Future.resolve. intros -> Hs. by destruct s. Qed.

Lemma unchanged_at_most_once fut w w' :
  futures w' = futures w -> notified w' = notified w ->
  resolved_at_most_once fut w w'.
Proof. intros Hf Hn. left. split; [by rewrite Hf|by apply fired_same]. Qed.

(** One resolution, of any future, resolves [fut] at most once. *)
Lemma resolve_step fut' o w fut :
  resolved_at_most_once fut w (Future.resolve fut' o w).2.
Proof.
  destruct (decide (fut' = fut)) as [->|Hne].
  - destruct (futures w !! fut) as [s|] eqn:Hf.
    + assert (s = Pending \/ s <> Pending) as [->|Hs]
        by (destruct s; [left|right|right]; done).
      * right. split; [done|]. split.
        -- exists o. rewrite resolve_pending by done. cbn.
           by rewrite lookup_insert_eq.
        -- by apply fired_resolve_pending.
      * rewrite (resolve_done fut o s w Hf Hs). left. by rewrite Hf.
    + destruct (resolve_not_pending fut o w) as [-> _]; [by rewrite Hf|].
      left. by rewrite Hf.
  - left. pose proof (resolve_frame fut' o w) as (Hf & _ & _ & _ & _ & _ & Hn).
    split; [apply Hf|apply Hn]; done.
Qed.

(** So does one call of any callable by the native layer. *)
Lemma invoke_future E cb ev w fut :
  resolved_at_most_once fut w (invoke E cb ev w).2.
Proof.
  destruct cb as [f|self []], ev; cbn;
    try (by apply unchanged_at_most_once).
  - apply resolve_step.
  - unfold S3Request._on_headers, bind.
    destruct (S3Request.getattr self _ w) as [[cb|e] w1] eqn:Hg;
      pose proof (getattr_world self S3RequestSlots._on_headers_cb w) as Hw;
      rewrite Hg in Hw; cbn in Hw; subst w1;
      [|by apply unchanged_at_most_once].
    destruct (truthy cb); [|by apply unchanged_at_most_once].
    pose proof (call_user_frame E cb
                  [("status_code", status_code); ("headers", headers)] w) as H.
    cbv zeta in H. apply unchanged_at_most_once; tauto.
  - unfold S3Request._on_body, bind.
    destruct (S3Request.getattr self _ w) as [[cb|e] w1] eqn:Hg;
      pose proof (getattr_world self S3RequestSlots._on_body_cb w) as Hw;
      rewrite Hg in Hw; cbn in Hw; subst w1;
      [|by apply unchanged_at_most_once].
    destruct (truthy cb); [|by apply unchanged_at_most_once].
    pose proof (call_user_frame E cb [("chunk", chunk)] w) as H.
    cbv zeta in H. apply unchanged_at_most_once; tauto.
  - unfold S3Request._on_finish, bind.
    destruct (truthy (PyInt error_code));
      destruct (S3Request.getattr self _ w) as [[f|e] w1] eqn:Hg;
      pose proof (getattr_world self S3RequestSlots._finished_future w) as Hw;
      rewrite Hg in Hw; cbn in Hw; subst w1;
      try (by apply unchanged_at_most_once).
    apply resolve_step.
  - unfold S3Request._on_shutdown, S3Request.shutdown_future, bind.
    destruct (S3Request.getattr self _ w) as [[f|e] w1] eqn:Hg;
      pose proof (getattr_world self S3RequestSlots._shutdown_future w) as Hw;
      rewrite Hg in Hw; cbn in Hw; subst w1;
      [|by apply unchanged_at_most_once].
    apply resolve_step.
Qed.

(** So does any operation, on a future that exists. *)
Lemma perform_future E op w fut :
  (fut < next_addr w)%nat -> resolved_at_most_once fut w (perform E op w).
Proof.
  intros Hlt.
  destruct op as [kw|c kw|cb ev|self|self]; unfold perform.
  - unfold S3Client.new, bind, lift.
    destruct (S3Client.bind_args kw) as [a|e]; cbv beta iota;
      [|by apply unchanged_at_most_once].
    pose proof (S3Client_init_frame E a w) as H. cbv zeta in H.
    destruct H as (_ & _ & _ & Hf & Hn & _).
    left. split; [by apply Hf|by apply fired_same].
  - unfold S3Client.make_request.
    destruct (keywords_ok _ _ kw); [|by apply unchanged_at_most_once].
    match goal with |- context [S3Request.init E ?a w] =>
      pose proof (S3Request_init_frame E a w) as H end.
    cbv zeta in H. destruct H as (_ & _ & _ & Hf & Hn & _).
    left. split; [by apply Hf|by apply fired_same].
  - apply invoke_future.
  - unfold S3Request.finished_future. rewrite getattr_world.
    by apply unchanged_at_most_once.
  - unfold S3Request.shutdown_future. rewrite getattr_world.
    by apply unchanged_at_most_once.
Qed.

Lemma resolved_at_most_once_trans fut w w1 w2 :
  resolved_at_most_once fut w w1 -> resolved_at_most_once fut w1 w2 ->
  resolved_at_most_once fut w w2.
Proof.
  intros [[H1 H2]|(H1 & [o H2] & H3)] [[K1 K2]|(K1 & [o' K2] & K3)].
  - left. split; congruence.
  - right. split; [congruence|]. split; [eauto|congruence].
  - right. split; [done|]. split; [exists o; congruence|congruence].
  - congruence.
Qed.

(** And so does any sequence of operations: a future is resolved once at
    most, whatever is done. *)
Lemma perform_all_future E ops : forall w fut,
  (fut < next_addr w)%nat -> resolved_at_most_once fut w (perform_all E ops w).
Proof.
  induction ops as [|op ops IH]; intros w fut Hlt.
  - by apply unchanged_at_most_once.
  - change (perform_all E (op :: ops) w) with (perform_all E ops (perform E op w)).
    apply (resolved_at_most_once_trans fut w (perform E op w)).
    + by apply perform_future.
    + apply IH. pose proof (perform_objects E op w) as (Hn & _). lia.
Qed.

(** ** The two futures of a request, event by event *)

Lemma after_after s (b1 b2 : bool) (v : result pyval) :
  after (after s (if b1 then Some v else None)) (if b2 then Some v else None)
  = after s (if b1 || b2 then Some v else None).
Proof. by destruct s, b1, b2. Qed.

Lemma after_resolved s (v : result pyval) : after s (Some v) <> Pending.
Proof. by destruct s. Qed.

Section RequestFutures.
Variable E : ffi.
Variables (self fin shut : nat) (r : S3RequestSlots.t).
Hypothesis Hfin : S3RequestSlots._finished_future r = Some fin.
Hypothesis Hshut : S3RequestSlots._shutdown_future r = Some shut.
Hypothesis Hne : fin <> shut.

(** What one event does to a request whose finished and shutdown futures
    are in the states [sf] and [ss]. *)
Lemma invoke_event ev w sf ss :
  requests w !! self = Some r ->
  futures w !! fin = Some sf -> futures w !! shut = Some ss ->
  let out := invoke E (handler self ev) ev w in
  requests out.2 = requests w /\
  futures out.2 !! fin =
    Some (after sf (if is_success ev then Some (Ok (PyStr "what?")) else None)) /\
  futures out.2 !! shut =
    Some (after ss (if is_shutdown ev then Some (Ok (PyStr "what?")) else None)) /\
  Future.fired fin out.2 =
    (Future.fired fin w +
     match sf with Pending => if is_success ev then 1 else 0 | _ => 0 end)%nat /\
  Future.fired shut out.2 =
    (Future.fired shut w +
     match ss with Pending => if is_shutdown ev then 1 else 0 | _ => 0 end)%nat /\
  (is_error ev = true -> out.1 = Raise AttributeError) /\
  (sf <> Pending -> is_success ev = true -> out.1 = Raise InvalidStateError) /\
  (ss <> Pending -> is_shutdown ev = true -> out.1 = Raise InvalidStateError).
Proof.
  intros Hr Hf Hs out. subst out.
  split; [apply invoke_objects|].
  assert (Hsame : forall w', futures w' = futures w -> notified w' = notified w ->
            futures w' !! fin = Some (after sf None) /\
            futures w' !! shut = Some (after ss None) /\
            Future.fired fin w' =
              (Future.fired fin w + match sf with Pending => 0 | _ => 0 end)%nat /\
            Future.fired shut w' =
              (Future.fired shut w + match ss with Pending => 0 | _ => 0 end)%nat).
  { intros w' Hfu Hno. rewrite Hfu, !(fired_same _ w w') by done.
    rewrite Hf, Hs. destruct sf, ss; cbn; rewrite ?Nat.add_0_r; done. }
  destruct ev as [status_code headers|chunk|error_code|]; cbn [handler invoke].
  - cbn [is_success is_shutdown is_error].
    assert (Hw : futures (S3Request._on_headers E self status_code headers w).2
                   = futures w /\
                 notified (S3Request._on_headers E self status_code headers w).2
                   = notified w).
    { unfold S3Request._on_headers, bind.
      destruct (S3Request.getattr self _ w) as [[cb|e] w1] eqn:Hg;
        pose proof (getattr_world self S3RequestSlots._on_headers_cb w) as Hw;
        rewrite Hg in Hw; cbn in Hw; subst w1; [|done].
      destruct (truthy cb); [|done].
      pose proof (call_user_frame E cb
                    [("status_code", status_code); ("headers", headers)] w) as H.
      cbv zeta in H. tauto. }
    destruct Hw as [Hfu Hno].
    destruct (Hsame _ Hfu Hno) as (H1 & H2 & H3 & H4). done.
  - cbn [is_success is_shutdown is_error].
    assert (Hw : futures (S3Request._on_body E self chunk w).2 = futures w /\
                 notified (S3Request._on_body E self chunk w).2 = notified w).
    { unfold S3Request._on_body, bind.
      destruct (S3Request.getattr self _ w) as [[cb|e] w1] eqn:Hg;
        pose proof (getattr_world self S3RequestSlots._on_body_cb w) as Hw;
        rewrite Hg in Hw; cbn in Hw; subst w1; [|done].
      destruct (truthy cb); [|done].
      pose proof (call_user_frame E cb [("chunk", chunk)] w) as H.
      cbv zeta in H. tauto. }
    destruct Hw as [Hfu Hno].
    destruct (Hsame _ Hfu Hno) as (H1 & H2 & H3 & H4). done.
  - rewrite (on_finish_eq self r fin error_code w Hr Hfin).
    cbn [is_success is_shutdown is_error].
    destruct (Z.eqb_spec error_code 0) as [->|Hnz]; cbn [negb].
    + assert (sf = Pending \/ sf <> Pending) as [->|Hnp]
        by (destruct sf; [left|right|right]; done).
      * pose proof (fired_resolve_pending fin (Ok (PyStr "what?")) w Hf) as Hn.
        pose proof (resolve_frame fin (Ok (PyStr "what?")) w)
          as (Hoth & _ & _ & _ & _ & _ & Hfo).
        rewrite Hn, (Hoth shut), (Hfo shut), Hs by congruence.
        rewrite resolve_pending by done.
        cbn [fst snd futures with_notified with_futures].
        rewrite lookup_insert_eq.
        destruct ss; cbn; rewrite ?Nat.add_0_r;
          repeat split; try done; lia.
      * rewrite (resolve_done fin _ sf w Hf Hnp). cbn [fst snd].
        destruct (Hsame w eq_refl eq_refl) as (H1 & H2 & H3 & H4).
        rewrite H1, H2. destruct sf, ss; cbn; rewrite ?Nat.add_0_r; done.
    + cbn [fst snd].
      destruct (Hsame w eq_refl eq_refl) as (H1 & H2 & H3 & H4). done.
  - rewrite (on_shutdown_eq self r shut w Hr Hshut).
    cbn [is_success is_shutdown is_error].
    assert (ss = Pending \/ ss <> Pending) as [->|Hnp]
      by (destruct ss; [left|right|right]; done).
    + pose proof (fired_resolve_pending shut (Ok (PyStr "what?")) w Hs) as Hn.
      pose proof (resolve_frame shut (Ok (PyStr "what?")) w)
        as (Hoth & _ & _ & _ & _ & _ & Hfo).
      rewrite Hn, (Hoth fin), (Hfo fin), Hf by congruence.
      rewrite resolve_pending by done.
      cbn [fst snd futures with_notified with_futures].
      rewrite lookup_insert_eq.
      destruct sf; cbn; rewrite ?Nat.add_0_r;
        repeat split; try done; lia.
    + rewrite (resolve_done shut _ ss w Hs Hnp). cbn [fst snd].
      destruct (Hsame w eq_refl eq_refl) as (H1 & H2 & H3 & H4).
      rewrite H1, H2. destruct sf, ss; cbn; rewrite ?Nat.add_0_r; done.
Qed.

(** What a sequence of events does to them. *)
Lemma deliver_futures evs : forall w sf ss,
  requests w !! self = Some r ->
  futures w !! fin = Some sf -> futures w !! shut = Some ss ->
  let out := deliver E self evs w in
  requests out.2 = requests w /\
  futures out.2 !! fin =
    Some (after sf (if existsb is_success evs
                    then Some (Ok (PyStr "what?")) else None)) /\
  futures out.2 !! shut =
    Some (after ss (if existsb is_shutdown evs
                    then Some (Ok (PyStr "what?")) else None)) /\
  Future.fired fin out.2 =
    (Future.fired fin w +
     match sf with Pending => if existsb is_success evs then 1 else 0 | _ => 0 end)%nat /\
  Future.fired shut out.2 =
    (Future.fired shut w +
     match ss with Pending => if existsb is_shutdown evs then 1 else 0 | _ => 0 end)%nat /\
  (forall j ev, evs !! j = Some ev -> is_error ev = true ->
     out.1 !! j = Some (Raise AttributeError)) /\
  (sf <> Pending -> forall j ev, evs !! j = Some ev -> is_success ev = true ->
     out.1 !! j = Some (Raise InvalidStateError)) /\
  (ss <> Pending -> forall j, evs !! j = Some Shutdown ->
     out.1 !! j = Some (Raise InvalidStateError)) /\
  (forall i j ev1 ev2, (i < j)%nat ->
     evs !! i = Some ev1 -> is_success ev1 = true ->
     evs !! j = Some ev2 -> is_success ev2 = true ->
     out.1 !! j = Some (Raise InvalidStateError)) /\
  (forall i j, (i < j)%nat ->
     evs !! i = Some Shutdown -> evs !! j = Some Shutdown ->
     out.1 !! j = Some (Raise InvalidStateError)).
Proof.
  induction evs as [|ev evs IH]; intros w sf ss Hr Hf Hs; cbv zeta.
  - unfold after. destruct sf, ss; cbn; rewrite ?Nat.add_0_r; repeat split; done.
  - cbn [deliver].
    pose proof (invoke_event ev w sf ss Hr Hf Hs)
      as (Hq & Hf1 & Hs1 & Hn1 & Hm1 & He1 & Hi1 & Hj1).
    cbv zeta in Hq, Hf1, Hs1, Hn1, Hm1, He1, Hi1, Hj1.
    destruct (invoke E (handler self ev) ev w) as [res w1] eqn:Hinv.
    cbn [fst snd] in Hq, Hf1, Hs1, Hn1, Hm1, He1, Hi1, Hj1.
    assert (Hr1 : requests w1 !! self = Some r) by (by rewrite Hq).
    specialize (IH w1 _ _ Hr1 Hf1 Hs1). cbv zeta in IH.
    destruct (deliver E self evs w1) as [rs w2].
    cbn [fst snd existsb] in *.
    destruct IH as (I1 & I2 & I3 & I4 & I5 & I6 & I7 & I8 & I9 & I10).
    split; [congruence|].
    split; [by rewrite I2, after_after|].
    split; [by rewrite I3, after_after|].
    split.
    { rewrite I4, Hn1. destruct sf, (is_success ev), (existsb is_success evs);
        cbn; lia. }
    split.
    { rewrite I5, Hm1. destruct ss, (is_shutdown ev), (existsb is_shutdown evs);
        cbn; lia. }
    split.
    { intros [|j] ev' Hj Herr; cbn in Hj |- *.
      - injection Hj as <-. by rewrite He1.
      - by apply (I6 j ev'). }
    split.
    { intros Hnp [|j] ev' Hj Hsu; cbn in Hj |- *.
      - injection Hj as <-. by rewrite Hi1.
      - apply (I7 ltac:(by destruct sf, (is_success ev)) j ev'); done. }
    split.
    { intros Hnp [|j] Hj; cbn in Hj |- *.
      - injection Hj as ->. by rewrite Hj1.
      - apply (I8 ltac:(by destruct ss, (is_shutdown ev)) j); done. }
    split.
    { intros [|i] [|j] ev1 ev2 Hij Hi Hs1' Hj Hs2; try lia; cbn in Hi, Hj |- *.
      - injection Hi as <-. rewrite Hs1' in I7.
        apply (I7 (after_resolved sf _) j ev2); done.
      - apply (I9 i j ev1 ev2); [lia|done..]. }
    { intros [|i] [|j] Hij Hi Hj; try lia; cbn in Hi, Hj |- *.
      - injection Hi as ->. cbn [is_shutdown] in I8.
        apply (I8 (after_resolved ss _) j); done.
      - apply (I10 i j); [lia|done..]. }
Qed.

End RequestFutures.

(** ** The terminal signal *)

(** C4.  For a constructed request and any sequence of events the native
    layer reports to it, the terminal signal, that is the resolution of the
    finished future, fires once exactly when a terminal event with error
    code 0 is among them, and not at all otherwise: a terminal event with a
    non-zero error code raises [AttributeError] in [_on_finish] and leaves
    the future pending, so a request that ends in an error is never
    signalled.  The signal never fires more than once. *)
Theorem terminal_signal_count E a w0 self w1 evs :
  S3Request.init E a w0 = (Ok self, w1) ->
  exists fin,
    S3Request.finished_future self w1 = (Ok fin, w1) /\
    futures w1 !! fin = Some Pending /\
    let out := deliver E self evs w1 in
    Future.fired fin out.2 =
      (Future.fired fin w1 + if existsb is_success evs then 1 else 0)%nat /\
    (existsb is_success evs = false -> futures out.2 !! fin = Some Pending) /\
    (existsb is_success evs = true ->
     futures out.2 !! fin = Some (Finished (Ok (PyStr "what?")))) /\
    (forall j error_code, evs !! j = Some (Finish error_code) -> error_code <> 0 ->
       out.1 !! j = Some (Raise AttributeError)).
Proof.
  intros Hi.
  destruct (S3Request_init_inv _ _ _ _ _ Hi) as (Ht & -> & b & Hb & ->).
  set (self := next_addr w0).
  set (r := S3RequestSlots.Make (Some (S3Request.on_headers a))
              (Some (S3Request.on_body a)) (Some (S self)) (Some (S (S self)))
              (Some (S3Request.client a)) (Some b)).
  assert (Hr : requests (request_built a b w0) !! self = Some r)
    by (cbn; apply lookup_insert_eq).
  assert (Hf : futures (request_built a b w0) !! S self = Some Pending).
  { cbn. rewrite lookup_insert_ne by lia. apply lookup_insert_eq. }
  assert (Hs : futures (request_built a b w0) !! S (S self) = Some Pending).
  { cbn. apply lookup_insert_eq. }
  exists (S self).
  split; [by apply (getattr_ok _ _ r)|]. split; [done|].
  destruct (deliver_futures E self (S self) (S (S self)) r eq_refl eq_refl
              ltac:(lia) evs _ _ _ Hr Hf Hs)
    as (_ & H2 & _ & H4 & _ & H6 & _).
  cbv zeta. split; [done|].
  split; [intros Hn; by rewrite H2, Hn|].
  split; [intros Hn; by rewrite H2, Hn|].
  intros j error_code Hj Hnz. apply (H6 j (Finish error_code)); [done|].
  cbn. by destruct (Z.eqb_spec error_code 0).
Qed.

(** C4 at the sample request: after a header event and a terminal event
    with error code 14 the finished future is pending and its waiters were
    never notified. *)
Lemma terminal_signal_count_witness :
  let out := deliver Sample.env 2
               [Headers (PyInt 200) PyNone; Finish 14] Sample.with_request in
  futures out.2 !! 3%nat = Some Pending /\
  Future.fired 3 out.2 = O /\
  out.1 !! 1%nat = Some (Raise AttributeError).
Proof.
  cbv zeta.
  destruct (terminal_signal_count Sample.env
    {| S3Request.client := PyObj S3ClientClass 0;
       S3Request.request := PyObj HttpRequest 200;
       S3Request.type := PyEnum GET_OBJECT;
       S3Request.on_headers := PyFunc 300;
       S3Request.on_body := PyNone |}
    Sample.with_client 2 Sample.with_request
    [Headers (PyInt 200) PyNone; Finish 14])
    as (fin & Hfin & _ & Hn & Hp & _ & He).
  - vm_compute. reflexivity.
  - assert (fin = 3%nat) as -> by (vm_compute in Hfin; congruence).
    split; [by apply Hp|]. split; [rewrite Hn; vm_compute; reflexivity|].
    apply (He 1%nat 14); [reflexivity|lia].
Defined.

(** ** No [cancel()] *)

Lemma request_lookup self r name w :
  requests w !! self = Some r ->
  S3Request.lookup self name w =
    (if bool_decide (name ∈ S3Request.attribute_names)
     then Ok tt else Raise AttributeError, w).
Proof. unfold S3Request.lookup. intros ->. by destruct (bool_decide _). Qed.

(** C1 (as the code has it).  A request returned by [make_request] has no
    [cancel]: at any later time the lookup raises [AttributeError] and
    changes nothing.  What reaches the request is the terminal report of the
    native layer, and that is idempotent: the same report made twice leaves
    the store that the first one left, the second call raises, and the
    finished future is neither changed nor signalled by it. *)
Theorem terminal_report_idempotent E c kw w0 self w1 :
  S3Client.make_request E c kw w0 = (Ok self, w1) ->
  exists fin,
    S3Request.finished_future self w1 = (Ok fin, w1) /\
    forall ops,
      let w := perform_all E ops w1 in
      S3Request.lookup self "cancel" w = (Raise AttributeError, w) /\
      forall error_code,
        let once := S3Request._on_finish self error_code w in
        let twice := S3Request._on_finish self error_code once.2 in
        twice.2 = once.2 /\
        is_Ok twice.1 = false /\
        futures twice.2 !! fin = futures once.2 !! fin /\
        Future.fired fin twice.2 = Future.fired fin once.2.
Proof.
  unfold S3Client.make_request.
  destruct (keywords_ok _ _ kw) eqn:Hk; [|done].
  intros Hi.
  destruct (S3Request_init_inv _ _ _ _ _ Hi) as (Ht & -> & b & Hb & ->).
  set (self := next_addr w0).
  match goal with |- context [request_built ?a b w0] => set (args := a) end.
  set (r := S3RequestSlots.Make (Some (S3Request.on_headers args))
              (Some (S3Request.on_body args)) (Some (S self)) (Some (S (S self)))
              (Some (S3Request.client args)) (Some b)).
  assert (Hr : requests (request_built args b w0) !! self = Some r)
    by (cbn; apply lookup_insert_eq).
  exists (S self). split; [by apply (getattr_ok _ _ r)|].
  intros ops. set (w := perform_all E ops (request_built args b w0)).
  assert (Hrw : requests w !! self = Some r).
  { destruct (perform_all_objects E ops (request_built args b w0)) as (_ & Hq & _).
    fold w in Hq. rewrite Hq; [done|]. cbn. lia. }
  split; [by rewrite (request_lookup self r)|].
  intros error_code.
  assert (H : (S3Request._on_finish self error_code
                 (S3Request._on_finish self error_code w).2).2
              = (S3Request._on_finish self error_code w).2 /\
              is_Ok (S3Request._on_finish self error_code
                       (S3Request._on_finish self error_code w).2).1 = false).
  { rewrite (on_finish_eq self r (S self) error_code w Hrw eq_refl).
    destruct (Z.eqb_spec error_code 0) as [->|Hnz].
    - assert (Hrw' : requests (Future.resolve (S self) (Ok (PyStr "what?")) w).2
                       !! self = Some r).
      { pose proof (resolve_frame (S self) (Ok (PyStr "what?")) w)
          as (_ & _ & -> & _). done. }
      apply (on_finish_again self r (S self) 0 _ Hrw' eq_refl).
      destruct (futures w !! S self) as [s|] eqn:Hf.
      + assert (s = Pending \/ s <> Pending) as [->|Hs]
          by (destruct s; [left|right|right]; done).
        * rewrite resolve_pending by done. cbn. by rewrite lookup_insert_eq.
        * rewrite (resolve_done _ _ s w Hf Hs). cbn. rewrite Hf. congruence.
      + destruct (resolve_not_pending (S self) (Ok (PyStr "what?")) w) as [-> _];
          rewrite Hf; done.
    - cbn [snd]. by apply on_finish_error. }
  destruct H as [H1 H2]. rewrite H1. done.
Qed.

(** C1 at the sample request: no [cancel] to look up, and a second
    successful terminal report leaves the store of the first. *)
Lemma terminal_report_idempotent_witness :
  S3Request.lookup 2 "cancel" Sample.with_request
    = (Raise AttributeError, Sample.with_request) /\
  (S3Request._on_finish 2 0
     (S3Request._on_finish 2 0 Sample.with_request).2).2
  = (S3Request._on_finish 2 0 Sample.with_request).2.
Proof.
  destruct (terminal_report_idempotent Sample.env 0 Sample.request_kwargs
              Sample.with_client 2 Sample.with_request) as (fin & _ & H).
  - vm_compute. reflexivity.
  - destruct (H []) as [Hl Hc]. split; [exact Hl|].
    exact (proj1 (Hc 0)).
Defined.

(** C1, counterexample: the request that [make_request] returns at the
    sample client has the two future properties and no [cancel]. *)
Lemma cancel_not_provided :
  (S3Client.make_request Sample.env 0 Sample.request_kwargs Sample.with_client).1
    = Ok 2%nat /\
  S3Request.lookup 2 "finished_future" Sample.with_request
    = (Ok tt, Sample.with_request) /\
  S3Request.lookup 2 "cancel" Sample.with_request
    = (Raise AttributeError, Sample.with_request).
Proof. vm_compute. repeat split; reflexivity. Qed.

(** ** No [shutdown()], and the shutdown-complete signal *)

Lemma client_lookup self c name w :
  clients w !! self = Some c ->
  S3Client.lookup self name w =
    (if bool_decide (name ∈ S3Client.attribute_names)
     then Ok tt else Raise AttributeError, w).
Proof. unfold S3Client.lookup. intros ->. by destruct (bool_decide _). Qed.

(** C7 (as the code has it).  A constructed client has no [shutdown]: at
    any later time the lookup raises [AttributeError] and changes nothing.
    The shutdown-complete signal is the resolution of the client's shutdown
    future by the [on_shutdown] closure that the constructor hands to the
    native constructor.  The future is pending after construction and the
    first call of the closure resolves it with [None].  Whatever operations
    follow the construction, the future is signalled at most once; a call
    of the closure leaves it signalled exactly once, and calling the closure
    again raises and changes nothing. *)
Theorem shutdown_signal_once E kw w0 self w1 :
  S3Client.new E kw w0 = (Ok self, w1) ->
  exists fut n,
    S3ClientSlots.shutdown_future <$> clients w1 !! self = Some (Some fut) /\
    native_calls w1 = (native_calls w0 ++ [CallS3ClientNew n])%list /\
    n_on_shutdown n = OnShutdownClosure fut /\
    futures w1 !! fut = Some Pending /\
    invoke E (OnShutdownClosure fut) Shutdown w1 =
      (Ok tt, with_notified (notified w1 ++ [(fut, Ok PyNone)])
                (with_futures (<[fut := Finished (Ok PyNone)]> (futures w1)) w1)) /\
    forall ops,
      let w := perform_all E ops w1 in
      S3Client.lookup self "shutdown" w = (Raise AttributeError, w) /\
      (Future.fired fut w <= S (Future.fired fut w1))%nat /\
      let w' := (invoke E (OnShutdownClosure fut) Shutdown w).2 in
      Future.fired fut w' = S (Future.fired fut w1) /\
      (exists o, futures w' !! fut = Some (Finished o)) /\
      invoke E (OnShutdownClosure fut) Shutdown w' = (Raise InvalidStateError, w').
Proof.
  intros Hn.
  destruct (S3Client_new_inv _ _ _ _ _ Hn) as (a & b & Hb & Ht & -> & Hnat & ->).
  set (self := next_addr w0).
  exists (S self), (S3Client.native_args E (S self) a).
  assert (Hp : futures (client_built E a b w0) !! S self = Some Pending)
    by (cbn; apply lookup_insert_eq).
  split; [cbn; by rewrite lookup_insert_eq|].
  split; [done|]. split; [done|]. split; [done|].
  split.
  { cbn [invoke]. unfold S3Client.on_shutdown, Future.set_result.
    by rewrite resolve_pending. }
  intros ops w.
  destruct (perform_all_objects E ops (client_built E a b w0)) as (_ & _ & Hc).
  fold w in Hc.
  split.
  { rewrite (client_lookup self (S3ClientSlots.Make (Some (S self)) (Some b)));
      [done|].
    rewrite Hc by (cbn; lia). cbn. by rewrite lookup_insert_eq. }
  pose proof (perform_all_future E ops (client_built E a b w0) (S self)
                ltac:(cbn; lia)) as Hr.
  fold w in Hr. cbn [invoke].
  unfold S3Client.on_shutdown, Future.set_result.
  destruct Hr as [[Hf Hfi]|(_ & [o Hf] & Hfi)].
  - rewrite Hp in Hf. split; [lia|].
    pose proof (fired_resolve_pending (S self) (Ok PyNone) w Hf) as Hs.
    cbv zeta. rewrite Hs, Hfi. split; [done|].
    rewrite (resolve_pending _ _ w Hf). cbn [snd futures with_notified with_futures].
    split; [exists (Ok PyNone); by rewrite lookup_insert_eq|].
    apply (resolve_done _ _ (Finished (Ok PyNone))); [|done].
    cbn. by rewrite lookup_insert_eq.
  - split; [lia|]. cbv zeta.
    rewrite (resolve_done _ _ _ w Hf) by done. cbn [snd].
    split; [done|]. split; [eauto|].
    by apply (resolve_done _ _ _ w Hf).
Qed.

(** C7 at the sample client: no [shutdown] to look up, and two calls of
    the closure notify the waiters of the shutdown future once. *)
Lemma shutdown_signal_once_witness :
  S3Client.lookup 0 "shutdown" Sample.with_client
    = (Raise AttributeError, Sample.with_client) /\
  Future.fired 1
    (perform_all Sample.env
       [Callback (OnShutdownClosure 1) Shutdown;
        Callback (OnShutdownClosure 1) Shutdown] Sample.with_client) = 1%nat.
Proof.
  destruct (shutdown_signal_once Sample.env Sample.client_kwargs empty_world 0
              Sample.with_client) as (fut & n & Hs & _ & _ & _ & _ & H).
  - vm_compute. reflexivity.
  - assert (fut = 1%nat) as -> by (vm_compute in Hs; congruence).
    split; [exact (proj1 (H []))|].
    destruct (H [Callback (OnShutdownClosure 1) Shutdown]) as (_ & _ & Hf & _).
    cbv zeta in Hf. exact Hf.
Defined.

(** C7, counterexample: the sample client has a shutdown future and no
    [shutdown] to call. *)
Lemma shutdown_not_provided :
  (S3Client.new Sample.env Sample.client_kwargs empty_world).1 = Ok 0%nat /\
  S3Client.lookup 0 "shutdown_future" Sample.with_client
    = (Ok tt, Sample.with_client) /\
  S3Client.lookup 0 "shutdown" Sample.with_client
    = (Raise AttributeError, Sample.with_client).
Proof. vm_compute. repeat split; reflexivity. Qed.

(** * Further properties of the adapter *)

(** ** Construction of a request, all outcomes *)

Lemma S3Request_init_ill_typed E a w :
  S3Request.well_typed a = false ->
  (S3Request.init E a w).1 = Raise AssertionError /\
  native_calls (S3Request.init E a w).2 = native_calls w /\
  futures (S3Request.init E a w).2 = futures w.
Proof.
  unfold S3Request.init, S3Request.well_typed. unfold_monad.
  intros Ht. split_ifs; done.
Qed.

Lemma S3Request_init_native_calls E a w :
  S3Request.well_typed a = true ->
  native_calls (S3Request.init E a w).2 =
    (native_calls w ++ [CallMakeMetaRequest (S3Request.native_args (next_addr w) a)])%list.
Proof.
  unfold S3Request.init, S3Request.well_typed. unfold_monad.
  intros Ht. repeat (apply andb_prop in Ht as [Ht ?]).
  rewrite Ht. cbn.
  repeat match goal with H : _ = true |- _ => rewrite H; clear H; cbn end.
  unfold S3Request.native_args.
  destruct (s3_client_make_meta_request E _) as [b|e] eqn:Hn; cbn; done.
Qed.

(** X1.  [S3Request.__init__] checks the types of [client], [request] and
    the two callbacks and nothing else.  If a check fails it raises
    [AssertionError] before any future is created and before the native
    layer is called.  Otherwise it calls
    [_awscrt.s3_client_make_meta_request] once, with the client, the request
    and the type as given and with the four bound methods of the new
    request itself, and it returns the request exactly when that call
    returns, an exception of the call being passed on as it is.  [type] is
    not checked: requests that differ only in it pass or fail together. *)
Theorem request_construction_outcomes E a w :
  (S3Request.well_typed a = false ->
   (S3Request.init E a w).1 = Raise AssertionError /\
   native_calls (S3Request.init E a w).2 = native_calls w /\
   futures (S3Request.init E a w).2 = futures w) /\
  (S3Request.well_typed a = true ->
   let self := next_addr w in
   exists n,
     native_calls (S3Request.init E a w).2 =
       (native_calls w ++ [CallMakeMetaRequest n])%list /\
     m_client n = S3Request.client a /\
     m_request n = S3Request.request a /\
     m_type n = S3Request.type a /\
     m_on_headers n = BoundMethod self M_on_headers /\
     m_on_body n = BoundMethod self M_on_body /\
     m_on_finish n = BoundMethod self M_on_finish /\
     m_on_shutdown n = BoundMethod self M_on_shutdown /\
     (S3Request.init E a w).1 =
       match s3_client_make_meta_request E n with
       | Ok _ => Ok self
       | Raise e => Raise e
       end) /\
  (forall a',
     S3Request.client a' = S3Request.client a ->
     S3Request.request a' = S3Request.request a ->
     S3Request.on_headers a' = S3Request.on_headers a ->
     S3Request.on_body a' = S3Request.on_body a ->
     S3Request.well_typed a' = S3Request.well_typed a).
Proof.
  split; [apply S3Request_init_ill_typed|]. split.
  - intros Ht self. exists (S3Request.native_args self a).
    split; [by apply S3Request_init_native_calls|].
    repeat (split; [done|]).
    rewrite S3Request_init_typed by done. fold self.
    destruct (s3_client_make_meta_request E _); done.
  - intros a' H1 H2 H3 H4. unfold S3Request.well_typed.
    by rewrite H1, H2, H3, H4.
Qed.

(** ** Keyword arguments *)


Lemma forallb_false {A} (P : A -> bool) (l : list A) :
  forallb P l = false -> exists x, In x l /\ P x = false.
Proof.
  induction l as [|x l IH]; cbn; [done|].
  destruct (P x) eqn:Hx; cbn.
  - intros H. destruct (IH H) as (y & Hy & Hp). eauto.
  - eauto.
Qed.

Lemma keywords_ok_false required optional (kw : gmap string pyval) :
  keywords_ok required optional kw = false <->
  (exists k, is_Some (kw !! k) /\ k ∉ (required ++ optional)%list) \/
  (exists k, k ∈ required /\ kw !! k = None).
Proof.
  split.
  - intros Hf. unfold keywords_ok in Hf. apply andb_false_iff in Hf as [Hf|Hf];
      apply forallb_false in Hf as (k & Hin & Hp);
      apply bool_decide_eq_false in Hp.
    + left. exists k. split; [|done].
      apply list_elem_of_In in Hin.
      apply list_elem_of_fmap in Hin as ([k' v] & -> & Hkv).
      apply elem_of_map_to_list in Hkv. cbn. eauto.
    + right. exists k. split; [by apply list_elem_of_In|].
      destruct (kw !! k) eqn:Hk; [|done]. exfalso. apply Hp. eauto.
  - intros H. apply not_true_iff_false. rewrite keywords_ok_true.
    intros [H1 H2]. destruct H as [(k & Hk & Hn)|(k & Hk & Hn)].
    + by apply Hn, H1.
    + apply H2 in Hk. rewrite Hn in Hk. by destruct Hk.
Qed.

(** X2.  The constructor of [S3Client] takes keyword arguments only:
    [bootstrap] and [region] must be given and the seven options may be.
    A call with any other keyword, or without [bootstrap] or [region], is a
    [TypeError] and leaves the store as it is; any other call runs
    [__init__] with the options that were left out at their defaults
    ([None] for the two providers, 0 for the numbers). *)
Theorem client_constructor_keywords E kw w :
  ((exists k, is_Some (kw !! k) /\ k ∉ (S3Client.required ++ S3Client.optional)%list) \/
   kw !! "bootstrap" = None \/ kw !! "region" = None ->
   S3Client.new E kw w = (Raise TypeError, w)) /\
  ((forall k, is_Some (kw !! k) -> k ∈ (S3Client.required ++ S3Client.optional)%list) ->
   forall bootstrap region,
     kw !! "bootstrap" = Some bootstrap -> kw !! "region" = Some region ->
     S3Client.new E kw w =
       S3Client.init E
         {| S3Client.bootstrap := bootstrap;
            S3Client.region := region;
            S3Client.credential_provider := default PyNone (kw !! "credential_provider");
            S3Client.tls_connection_options := default PyNone (kw !! "tls_connection_options");
            S3Client.part_size := default (PyInt 0) (kw !! "part_size");
            S3Client.connection_timeout_ms := default (PyInt 0) (kw !! "connection_timeout_ms");
            S3Client.throughput_target_gbps := default (PyInt 0) (kw !! "throughput_target_gbps");
            S3Client.throughput_per_vip_gbps := default (PyInt 0) (kw !! "throughput_per_vip_gbps");
            S3Client.num_connections_per_vip := default (PyInt 0) (kw !! "num_connections_per_vip") |}
         w).
Proof.
  split.
  - intros H. unfold S3Client.new, S3Client.bind_args, bind, lift.
    replace (keywords_ok S3Client.required S3Client.optional kw) with false; [done|].
    symmetry. apply keywords_ok_false.
    destruct H as [H|[H|H]]; [by left| |]; right.
    + exists "bootstrap". split; [|done]. unfold S3Client.required.
      apply elem_of_cons. by left.
    + exists "region". split; [|done]. unfold S3Client.required.
      apply elem_of_cons. right. apply elem_of_cons. by left.
  - intros Hall bootstrap region Hb Hr.
    unfold S3Client.new, S3Client.bind_args, bind, lift.
    replace (keywords_ok S3Client.required S3Client.optional kw) with true.
    + unfold kwarg. rewrite Hb, Hr. done.
    + symmetry. apply keywords_ok_true. split; [done|].
      intros k Hk. unfold S3Client.required in Hk.
      apply elem_of_cons in Hk as [->|Hk]; [eauto|].
      apply elem_of_cons in Hk as [->|Hk]; [eauto|].
      by apply elem_of_nil in Hk.
Qed.

(** X3.  [make_request] takes keyword arguments only: [request] and [type]
    must be given, [on_headers] and [on_body] may be.  A call with any
    other keyword, or without [request] or [type], is a [TypeError]; it
    leaves the store as it is, so no request is created and the native
    layer is not called.  Any other call constructs an [S3Request] whose
    client is the client [make_request] was called on, with a callback that
    was left out being [None]. *)
Theorem make_request_keywords E self kw w :
  ((exists k, is_Some (kw !! k) /\
              k ∉ ["request"; "type"; "on_headers"; "on_body"]) \/
   kw !! "request" = None \/ kw !! "type" = None ->
   S3Client.make_request E self kw w = (Raise TypeError, w)) /\
  ((forall k, is_Some (kw !! k) ->
              k ∈ ["request"; "type"; "on_headers"; "on_body"]) ->
   forall request type,
     kw !! "request" = Some request -> kw !! "type" = Some type ->
     S3Client.make_request E self kw w =
       S3Request.init E
         {| S3Request.client := PyObj S3ClientClass self;
            S3Request.request := request;
            S3Request.type := type;
            S3Request.on_headers := default PyNone (kw !! "on_headers");
            S3Request.on_body := default PyNone (kw !! "on_body") |}
         w).
Proof.
  split.
  - intros H. unfold S3Client.make_request.
    replace (keywords_ok ["request"; "type"] ["on_headers"; "on_body"] kw)
      with false; [done|].
    symmetry. apply keywords_ok_false.
    destruct H as [H|[H|H]]; [by left| |]; right.
    + exists "request". split; [|done]. apply elem_of_cons. by left.
    + exists "type". split; [|done].
      apply elem_of_cons. right. apply elem_of_cons. by left.
  - intros Hall request type Hb Hr. unfold S3Client.make_request.
    replace (keywords_ok ["request"; "type"] ["on_headers"; "on_body"] kw)
      with true.
    + unfold kwarg. rewrite Hb, Hr. done.
    + symmetry. apply keywords_ok_true. split; [done|].
      intros k Hk.
      apply elem_of_cons in Hk as [->|Hk]; [eauto|].
      apply elem_of_cons in Hk as [->|Hk]; [eauto|].
      by apply elem_of_nil in Hk.
Qed.
(** ** Leaving an option out and passing its default *)

Lemma keywords_ok_insert_optional required optional k v (kw : gmap string pyval) :
  k ∈ optional -> k ∉ required ->
  keywords_ok required optional (<[k := v]> kw) = keywords_ok required optional kw.
Proof.
  intros Ho Hr. apply eq_true_iff_eq. rewrite !keywords_ok_true.
  split; intros [H1 H2]; split.
  - intros k' Hk'. apply H1. destruct (decide (k = k')) as [->|Hne].
    + rewrite lookup_insert_eq. eauto.
    + by rewrite lookup_insert_ne.
  - intros k' Hk'. specialize (H2 k' Hk').
    rewrite lookup_insert_ne in H2; [done|]. intros ->. done.
  - intros k' Hk'. destruct (decide (k = k')) as [<-|Hne].
    + apply elem_of_app. by right.
    + rewrite lookup_insert_ne in Hk' by done. by apply H1.
  - intros k' Hk'. rewrite lookup_insert_ne; [by apply H2|]. intros ->. done.
Qed.

(** X4.  For each of the seven options of the [S3Client] constructor,
    passing the default explicitly ([None] for [credential_provider] and
    [tls_connection_options], 0 for the numeric options) is the same call
    as leaving the option out: same outcome, same store, same arguments to
    the native constructor. *)
Theorem client_option_default_is_omission E kw w name :
  name ∈ S3Client.optional ->
  kw !! name = None ->
  S3Client.new E (<[name := client_option_default name]> kw) w = S3Client.new E kw w.
Proof.
  intros Hin Hnone. unfold S3Client.new, S3Client.bind_args.
  rewrite keywords_ok_insert_optional; [|done|].
  2: { unfold S3Client.required, S3Client.optional in *. intros Hr.
       apply list_elem_of_In in Hin, Hr. cbn in Hin, Hr.
       intuition (subst; discriminate). }
  destruct (keywords_ok _ _ kw); [|done].
  do 3 f_equal. unfold kwarg.
  unfold S3Client.optional in Hin. apply list_elem_of_In in Hin. cbn in Hin.
  destruct Hin as [<-|[<-|[<-|[<-|[<-|[<-|[<-|[]]]]]]]];
    rewrite Hnone, lookup_insert_eq, ?lookup_insert_ne by done; done.
Qed.

Lemma client_option_default_is_omission_witness :
  S3Client.new Sample.env (<["part_size" := PyInt 0]> Sample.client_kwargs) empty_world
  = S3Client.new Sample.env Sample.client_kwargs empty_world.
Proof.
  apply (client_option_default_is_omission Sample.env Sample.client_kwargs
           empty_world "part_size").
  - vm_compute. repeat constructor.
  - vm_compute. reflexivity.
Defined.

(** X5.  For [make_request], passing [None] for [on_headers] or for
    [on_body] is the same call as leaving the callback out. *)
Theorem callback_None_is_omission E self kw w name :
  name = "on_headers" \/ name = "on_body" ->
  kw !! name = None ->
  S3Client.make_request E self (<[name := PyNone]> kw) w
  = S3Client.make_request E self kw w.
Proof.
  intros Hin Hnone. unfold S3Client.make_request.
  rewrite keywords_ok_insert_optional.
  - destruct (keywords_ok _ _ kw); [|done].
    unfold kwarg.
    destruct Hin as [->| ->];
      rewrite lookup_insert_eq, !lookup_insert_ne, Hnone by done; done.
  - apply list_elem_of_In. destruct Hin as [->| ->]; cbn; tauto.
  - intros Hr. apply list_elem_of_In in Hr.
    destruct Hin as [->| ->]; cbn in Hr; intuition discriminate.
Qed.

Lemma callback_None_is_omission_witness :
  S3Client.make_request Sample.env 0 (<["on_body" := PyNone]> Sample.request_kwargs)
    Sample.with_client
  = S3Client.make_request Sample.env 0 Sample.request_kwargs Sample.with_client.
Proof.
  apply (callback_None_is_omission Sample.env 0 Sample.request_kwargs
           Sample.with_client "on_body").
  - right. reflexivity.
  - vm_compute. reflexivity.
Defined.

(** ** The futures of a request over a sequence of events *)

(** X6.  For a constructed request and any sequence of events reported to
    it afterwards, each of its two futures is resolved by the first event
    that can resolve it and by nothing else: the finished future by the
    first terminal event with error code 0, the shutdown future by the
    first shutdown event.  A later event of that kind raises
    [InvalidStateError], a terminal event with a non-zero code raises
    [AttributeError], and neither changes the future; header and body
    events resolve nothing.  The waiters of the shutdown future are
    notified once if there was a shutdown event and not at all otherwise. *)
Theorem first_resolution_wins E a w0 self w1 evs :
  S3Request.init E a w0 = (Ok self, w1) ->
  exists fin shut,
    S3Request.finished_future self w1 = (Ok fin, w1) /\
    S3Request.shutdown_future self w1 = (Ok shut, w1) /\
    let out := deliver E self evs w1 in
    futures out.2 !! fin =
      Some (resolved_by (if existsb is_success evs
                         then Some (Ok (PyStr "what?")) else None)) /\
    futures out.2 !! shut =
      Some (resolved_by (if existsb is_shutdown evs
                         then Some (Ok (PyStr "what?")) else None)) /\
    Future.fired shut out.2 =
      (Future.fired shut w1 + if existsb is_shutdown evs then 1 else 0)%nat /\
    (forall i j, (i < j)%nat ->
       evs !! i = Some (Finish 0) -> evs !! j = Some (Finish 0) ->
       out.1 !! j = Some (Raise InvalidStateError)) /\
    (forall i j, (i < j)%nat ->
       evs !! i = Some Shutdown -> evs !! j = Some Shutdown ->
       out.1 !! j = Some (Raise InvalidStateError)) /\
    (forall j error_code, evs !! j = Some (Finish error_code) -> error_code <> 0 ->
       out.1 !! j = Some (Raise AttributeError)).
Proof.
  intros Hi.
  destruct (S3Request_init_inv _ _ _ _ _ Hi) as (Ht & -> & b & Hb & ->).
  set (self := next_addr w0).
  set (r := S3RequestSlots.Make (Some (S3Request.on_headers a))
              (Some (S3Request.on_body a)) (Some (S self)) (Some (S (S self)))
              (Some (S3Request.client a)) (Some b)).
  assert (Hr : requests (request_built a b w0) !! self = Some r)
    by (cbn; apply lookup_insert_eq).
  exists (S self), (S (S self)).
  split; [by apply (getattr_ok _ _ r)|].
  split; [by apply (getattr_ok _ _ r)|].
  assert (Hpf : futures (request_built a b w0) !! S self = Some Pending).
  { cbn. rewrite lookup_insert_ne by lia. by rewrite lookup_insert_eq. }
  assert (Hps : futures (request_built a b w0) !! S (S self) = Some Pending).
  { cbn. by rewrite lookup_insert_eq. }
  pose proof (deliver_futures E self (S self) (S (S self)) r eq_refl eq_refl
                ltac:(lia) evs (request_built a b w0) Pending Pending Hr Hpf Hps) as H.
  cbv zeta in H |- *.
  destruct H as (_ & H2 & H3 & _ & H5 & H6 & _ & _ & H9 & H10).
  split; [done|]. split; [done|]. split; [done|].
  split; [intros i j Hij Hei Hej; by apply (H9 i j (Finish 0) (Finish 0))|].
  split; [done|].
  intros j error_code Hj Hnz. apply (H6 j (Finish error_code)); [done|].
  cbn. by destruct (Z.eqb_spec error_code 0).
Qed.

(** X6 at the sample request: a failed and two successful terminal events
    and a shutdown. *)
Lemma first_resolution_wins_witness :
  let out := deliver Sample.env 2
               [Headers (PyInt 200) PyNone; Finish 14; Finish 0; Finish 0; Shutdown]
               Sample.with_request in
  futures out.2 !! 3%nat = Some (Finished (Ok (PyStr "what?"))) /\
  out.1 !! 1%nat = Some (Raise AttributeError) /\
  out.1 !! 3%nat = Some (Raise InvalidStateError).
Proof.
  cbv zeta.
  destruct (first_resolution_wins Sample.env
    {| S3Request.client := PyObj S3ClientClass 0;
       S3Request.request := PyObj HttpRequest 200;
       S3Request.type := PyEnum GET_OBJECT;
       S3Request.on_headers := PyFunc 300;
       S3Request.on_body := PyNone |}
    Sample.with_client 2 Sample.with_request
    [Headers (PyInt 200) PyNone; Finish 14; Finish 0; Finish 0; Shutdown])
    as (fin & shut & Hfin & _ & Hf & _ & _ & Hi & _ & He).
  - vm_compute. reflexivity.
  - assert (fin = 3%nat) as -> by (vm_compute in Hfin; congruence).
    split; [exact Hf|]. split.
    + apply (He 1%nat 14); [reflexivity|lia].
    + apply (Hi 2%nat 3%nat); [lia|reflexivity|reflexivity].
Defined.

(** ** The shutdown closure of a client *)

Lemma invoke_times_done E fut s n : forall w,
  futures w !! fut = Some s -> s <> Pending ->
  invoke_times E (OnShutdownClosure fut) Shutdown n w
  = (replicate n (Raise InvalidStateError), w).
Proof.
  induction n as [|n IH]; intros w Hs Hnp; [done|].
  cbn [invoke_times invoke]. unfold S3Client.on_shutdown, Future.set_result.
  rewrite (resolve_done fut _ s w Hs Hnp). rewrite IH by done. done.
Qed.

(** X7.  The [on_shutdown] closure of a client resolves the client's
    shutdown future with [None] the first time the native layer calls it;
    every further call raises [InvalidStateError] and changes nothing, so
    after [n >= 1] calls the store is the one the first call left and the
    future's waiters were notified once. *)
Theorem client_shutdown_closure E kw w0 self w1 n :
  S3Client.new E kw w0 = (Ok self, w1) ->
  exists fut,
    S3ClientSlots.shutdown_future <$> clients w1 !! self = Some (Some fut) /\
    let out := invoke_times E (OnShutdownClosure fut) Shutdown (S n) w1 in
    out.1 = Ok tt :: replicate n (Raise InvalidStateError) /\
    out.2 = (invoke E (OnShutdownClosure fut) Shutdown w1).2 /\
    futures out.2 !! fut = Some (Finished (Ok PyNone)) /\
    Future.fired fut out.2 = S (Future.fired fut w1).
Proof.
  intros Hn.
  destruct (S3Client_new_inv _ _ _ _ _ Hn) as (a & b & Hb & Ht & -> & Hnat & ->).
  exists (S (next_addr w0)).
  split; [cbn; by rewrite lookup_insert_eq|].
  set (fut := S (next_addr w0)). set (w1 := client_built E a b w0).
  assert (Hp : futures w1 !! fut = Some Pending)
    by (cbn; by rewrite lookup_insert_eq).
  cbv zeta. cbn [invoke_times invoke].
  unfold S3Client.on_shutdown, Future.set_result.
  rewrite resolve_pending by done.
  set (w2 := with_notified _ _).
  assert (Hf : futures w2 !! fut = Some (Finished (Ok PyNone)))
    by (cbn; by rewrite lookup_insert_eq).
  rewrite (invoke_times_done E fut _ n w2 Hf) by done. cbn [fst snd].
  repeat split; try done.
  pose proof (fired_resolve_pending fut (Ok PyNone) w1 Hp) as H.
  rewrite resolve_pending in H by done. exact H.
Qed.

(** X7 at the sample client, its closure called three times. *)
Lemma client_shutdown_closure_witness :
  exists fut,
    (invoke_times Sample.env (OnShutdownClosure fut) Shutdown 3 Sample.with_client).1
    = [Ok tt; Raise InvalidStateError; Raise InvalidStateError].
Proof.
  destruct (client_shutdown_closure Sample.env Sample.client_kwargs empty_world 0
              Sample.with_client 2) as (fut & _ & H & _).
  - vm_compute. reflexivity.
  - exists fut. exact H.
Defined.

(** ** Header and body callbacks *)



(** ** A request after its construction *)

(** X9.  A constructed request is never modified: whatever operations
    follow (other clients and requests being made, callbacks being called,
    properties being read), all its attributes are as [__init__] set them.
    In particular the properties [finished_future] and [shutdown_future]
    return the same two distinct futures every time, and reading them
    changes nothing. *)
Theorem request_attributes_fixed E a w0 self w1 :
  S3Request.init E a w0 = (Ok self, w1) ->
  exists fin shut,
    fin <> shut /\
    forall ops,
      let w := perform_all E ops w1 in
      requests w !! self = requests w1 !! self /\
      S3Request.finished_future self w = (Ok fin, w) /\
      S3Request.shutdown_future self w = (Ok shut, w) /\
      S3RequestSlots._on_headers_cb <$> requests w !! self
        = Some (Some (S3Request.on_headers a)) /\
      S3RequestSlots._on_body_cb <$> requests w !! self
        = Some (Some (S3Request.on_body a)).
Proof.
  intros Hi.
  destruct (S3Request_init_inv _ _ _ _ _ Hi) as (Ht & -> & b & Hb & ->).
  set (self := next_addr w0).
  exists (S self), (S (S self)). split; [lia|].
  intros ops w.
  destruct (perform_all_objects E ops (request_built a b w0)) as (Hn & Hr & Hc).
  fold w in Hn, Hr, Hc. cbn in Hn, Hr, Hc.
  specialize (Hr self ltac:(lia)).
  assert (Hs : requests w !! self =
               Some (S3RequestSlots.Make (Some (S3Request.on_headers a))
                       (Some (S3Request.on_body a)) (Some (S self)) (Some (S (S self)))
                       (Some (S3Request.client a)) (Some b))).
  { rewrite Hr. apply lookup_insert_eq. }
  split; [done|].
  split; [by apply (getattr_ok _ _ _ _ _ Hs)|].
  split; [by apply (getattr_ok _ _ _ _ _ Hs)|].
  rewrite Hs. done.
Qed.

(** X9 at the sample request, after its terminal and shutdown callbacks. *)
Lemma request_attributes_fixed_witness :
  exists fin,
    S3Request.finished_future 2
      (perform_all Sample.env
         [Callback (BoundMethod 2 M_on_finish) (Finish 0);
          Callback (BoundMethod 2 M_on_shutdown) Shutdown]
         Sample.with_request)
    = (Ok fin,
       perform_all Sample.env
         [Callback (BoundMethod 2 M_on_finish) (Finish 0);
          Callback (BoundMethod 2 M_on_shutdown) Shutdown]
         Sample.with_request).
Proof.
  destruct (request_attributes_fixed Sample.env
    {| S3Request.client := PyObj S3ClientClass 0;
       S3Request.request := PyObj HttpRequest 200;
       S3Request.type := PyEnum GET_OBJECT;
       S3Request.on_headers := PyFunc 300;
       S3Request.on_body := PyNone |}
    Sample.with_client 2 Sample.with_request) as (fin & shut & _ & H).
  - vm_compute. reflexivity.
  - exists fin.
    exact (proj1 (proj2 (H [Callback (BoundMethod 2 M_on_finish) (Finish 0);
                            Callback (BoundMethod 2 M_on_shutdown) Shutdown]))).
Defined.

(** ** Construction and what exists already *)

Lemma S3Client_new_frame E kw w :
  let w1 := (S3Client.new E kw w).2 in
  (next_addr w <= next_addr w1)%nat /\
  requests w1 = requests w /\
  (forall i, (i < next_addr w)%nat -> clients w1 !! i = clients w !! i) /\
  (forall i, (i < next_addr w)%nat -> futures w1 !! i = futures w !! i) /\
  notified w1 = notified w /\ user_calls w1 = user_calls w /\
  (native_calls w1 = native_calls w \/
   exists n, native_calls w1 = (native_calls w ++ [CallS3ClientNew n])%list).
Proof.
  unfold S3Client.new, bind, lift.
  destruct (S3Client.bind_args kw) as [a|e]; cbv beta iota zeta.
  - pose proof (S3Client_init_frame E a w) as H. cbv zeta in H.
    destruct H as (H1 & H2 & H3 & H4 & H5 & H6).
    repeat (split; [done|]).
    destruct (S3Client.well_typed a) eqn:Ht.
    + right. eexists. by apply S3Client_init_native_calls.
    + left. by apply S3Client_init_ill_typed.
  - cbn. repeat (split; [done|]). by left.
Qed.

Lemma make_request_frame E c kw w :
  let w1 := (S3Client.make_request E c kw w).2 in
  (next_addr w <= next_addr w1)%nat /\
  clients w1 = clients w /\
  (forall i, (i < next_addr w)%nat -> requests w1 !! i = requests w !! i) /\
  (forall i, (i < next_addr w)%nat -> futures w1 !! i = futures w !! i) /\
  notified w1 = notified w /\ user_calls w1 = user_calls w /\
  (native_calls w1 = native_calls w \/
   exists n, native_calls w1 = (native_calls w ++ [CallMakeMetaRequest n])%list).
Proof.
  unfold S3Client.make_request.
  destruct (keywords_ok _ _ kw); cbv zeta.
  - match goal with |- context [S3Request.init E ?a w] =>
      pose proof (S3Request_init_frame E a w) as H;
      pose proof (S3Request_init_native_calls E a w) as Hnat;
      pose proof (S3Request_init_ill_typed E a w) as Hill;
      destruct (S3Request.well_typed a)
    end; cbv zeta in H; destruct H as (H1 & H2 & H3 & H4 & H5 & H6);
      repeat (split; [done|]).
    + right. eexists. by apply Hnat.
    + left. by apply Hill.
  - cbn. repeat (split; [done|]). by left.
Qed.

(** X10.  Constructing a client or a request, whether it succeeds or fails
    and for whatever reason, leaves everything that exists as it is: no
    object and no future created earlier is changed, no future is resolved
    or notified, no user callback is called, and the native layer is called
    at most once. *)
Theorem construction_leaves_existing_alone E w :
  (forall kw,
     let w1 := (S3Client.new E kw w).2 in
     (forall i, allocated w i ->
        allocated w1 i /\ requests w1 !! i = requests w !! i /\
        clients w1 !! i = clients w !! i /\ futures w1 !! i = futures w !! i) /\
     notified w1 = notified w /\ user_calls w1 = user_calls w /\
     (native_calls w1 = native_calls w \/
      exists n, native_calls w1 = (native_calls w ++ [CallS3ClientNew n])%list)) /\
  (forall c kw,
     let w1 := (S3Client.make_request E c kw w).2 in
     (forall i, allocated w i ->
        allocated w1 i /\ requests w1 !! i = requests w !! i /\
        clients w1 !! i = clients w !! i /\ futures w1 !! i = futures w !! i) /\
     notified w1 = notified w /\ user_calls w1 = user_calls w /\
     (native_calls w1 = native_calls w \/
      exists n, native_calls w1 = (native_calls w ++ [CallMakeMetaRequest n])%list)).
Proof.
  unfold allocated. split.
  - intros kw. cbv zeta.
    pose proof (S3Client_new_frame E kw w) as H. cbv zeta in H.
    destruct H as (H1 & H2 & H3 & H4 & H5 & H6 & H7).
    split; [|done]. intros i Hi. rewrite H2, H3, H4 by done.
    split; [lia|done].
  - intros c kw. cbv zeta.
    pose proof (make_request_frame E c kw w) as H. cbv zeta in H.
    destruct H as (H1 & H2 & H3 & H4 & H5 & H6 & H7).
    split; [|done]. intros i Hi. rewrite H2, H3, H4 by done.
    split; [lia|done].
Qed.

(** X11.  Two requests made on the same client, with anything happening
    in between, are different objects with different futures: the
    client's shutdown future and the finished and shutdown futures of the
    two requests are five distinct futures, both requests hold the
    client, and the terminal callback of one request leaves the futures of
    the other, and that of the client, as they are. *)
Theorem requests_have_their_own_futures E kw w0 c w1 ops1 kw1 r1 w2 ops2 kw2 r2 w3 :
  S3Client.new E kw w0 = (Ok c, w1) ->
  S3Client.make_request E c kw1 (perform_all E ops1 w1) = (Ok r1, w2) ->
  S3Client.make_request E c kw2 (perform_all E ops2 w2) = (Ok r2, w3) ->
  exists cfut f1 s1 f2 s2,
    S3ClientSlots.shutdown_future <$> clients w3 !! c = Some (Some cfut) /\
    S3Request.finished_future r1 w3 = (Ok f1, w3) /\
    S3Request.shutdown_future r1 w3 = (Ok s1, w3) /\
    S3Request.finished_future r2 w3 = (Ok f2, w3) /\
    S3Request.shutdown_future r2 w3 = (Ok s2, w3) /\
    r1 <> r2 /\
    NoDup [cfut; f1; s1; f2; s2] /\
    S3RequestSlots._client <$> requests w3 !! r1 = Some (Some (PyObj S3ClientClass c)) /\
    S3RequestSlots._client <$> requests w3 !! r2 = Some (Some (PyObj S3ClientClass c)) /\
    forall error_code,
      let w := (S3Request._on_finish r1 error_code w3).2 in
      futures w !! f2 = futures w3 !! f2 /\
      futures w !! s2 = futures w3 !! s2 /\
      futures w !! cfut = futures w3 !! cfut.
Proof.
  intros Hc H1 H2.
  destruct (S3Client_new_inv _ _ _ _ _ Hc) as (a & b & _ & _ & -> & _ & ->).
  unfold S3Client.make_request in H1, H2.
  destruct (keywords_ok _ _ kw1); [|done].
  destruct (keywords_ok _ _ kw2); [|done].
  destruct (S3Request_init_inv _ _ _ _ _ H1) as (_ & -> & b1 & _ & ->).
  destruct (S3Request_init_inv _ _ _ _ _ H2) as (_ & -> & b2 & _ & ->).
  clear H1 H2.
  set (c := next_addr w0) in *.
  set (a1 := {| S3Request.client := PyObj S3ClientClass c;
                S3Request.request := kwarg kw1 "request" PyNone;
                S3Request.type := kwarg kw1 "type" PyNone;
                S3Request.on_headers := kwarg kw1 "on_headers" PyNone;
                S3Request.on_body := kwarg kw1 "on_body" PyNone |}) in *.
  set (a2 := {| S3Request.client := PyObj S3ClientClass c;
                S3Request.request := kwarg kw2 "request" PyNone;
                S3Request.type := kwarg kw2 "type" PyNone;
                S3Request.on_headers := kwarg kw2 "on_headers" PyNone;
                S3Request.on_body := kwarg kw2 "on_body" PyNone |}) in *.
  set (u1 := perform_all E ops1 (client_built E a b w0)) in *.
  set (u2 := perform_all E ops2 (request_built a1 b1 u1)) in *.
  destruct (perform_all_objects E ops1 (client_built E a b w0)) as (Hn1 & _ & Hc1).
  destruct (perform_all_objects E ops2 (request_built a1 b1 u1)) as (Hn2 & Hr2 & Hc2).
  fold u1 in Hn1, Hc1. fold u2 in Hn2, Hr2, Hc2. cbn in Hn1, Hc1, Hn2, Hr2, Hc2.
  fold c in Hn1, Hc1.
  set (r1 := next_addr u1) in *. set (r2 := next_addr u2) in *.
  assert (Hreq1 : requests (request_built a2 b2 u2) !! r1 =
                  Some (S3RequestSlots.Make (Some (S3Request.on_headers a1))
                          (Some (S3Request.on_body a1)) (Some (S r1)) (Some (S (S r1)))
                          (Some (S3Request.client a1)) (Some b1))).
  { cbn. fold r2. rewrite lookup_insert_ne by lia.
    rewrite Hr2 by lia. apply lookup_insert_eq. }
  assert (Hreq2 : requests (request_built a2 b2 u2) !! r2 =
                  Some (S3RequestSlots.Make (Some (S3Request.on_headers a2))
                          (Some (S3Request.on_body a2)) (Some (S r2)) (Some (S (S r2)))
                          (Some (S3Request.client a2)) (Some b2))).
  { cbn. fold r2. apply lookup_insert_eq. }
  exists (S c), (S r1), (S (S r1)), (S r2), (S (S r2)).
  split.
  { change (clients (request_built a2 b2 u2)) with (clients u2).
    rewrite Hc2 by lia. rewrite Hc1 by lia.
    unfold client_built; cbn [clients]. fold c. by rewrite lookup_insert_eq. }
  split; [by apply (getattr_ok _ _ _ _ _ Hreq1)|].
  split; [by apply (getattr_ok _ _ _ _ _ Hreq1)|].
  split; [by apply (getattr_ok _ _ _ _ _ Hreq2)|].
  split; [by apply (getattr_ok _ _ _ _ _ Hreq2)|].
  split; [lia|].
  split.
  { repeat (apply NoDup_cons; split;
            [rewrite ?elem_of_cons, elem_of_nil; lia|]).
    apply NoDup_nil_2. }
  split; [by rewrite Hreq1|]. split; [by rewrite Hreq2|].
  intros error_code w. subst w.
  rewrite (on_finish_eq r1 _ (S r1) error_code _ Hreq1 eq_refl).
  destruct (error_code =? 0); [|done].
  match goal with |- context [Future.resolve _ ?o ?w] =>
    pose proof (resolve_frame (S r1) o w) as (Hf & _) end.
  repeat split; apply Hf; lia.
Qed.

(** X11 at the sample client: two requests, the first one finished before
    the second is made. *)
Lemma requests_have_their_own_futures_witness :
  exists cfut f1 s1 f2 s2 : nat, NoDup [cfut; f1; s1; f2; s2].
Proof.
  destruct (requests_have_their_own_futures Sample.env
              Sample.client_kwargs empty_world 0 Sample.with_client
              [] Sample.request_kwargs 2 Sample.with_request
              [Callback (BoundMethod 2 M_on_finish) (Finish 0)]
              Sample.request_kwargs 5
              (S3Client.make_request Sample.env 0 Sample.request_kwargs
                 (perform_all Sample.env
                    [Callback (BoundMethod 2 M_on_finish) (Finish 0)]
                    Sample.with_request)).2)
    as (cfut & f1 & s1 & f2 & s2 & _ & _ & _ & _ & _ & _ & H & _).
  - vm_compute. reflexivity.
  - vm_compute. reflexivity.
  - vm_compute. reflexivity.
  - exists cfut, f1, s1, f2, s2. exact H.
Defined.

(** ** The read stream of the tests *)

(** A string of [k] letters x, encoded. *)
Lemma bytes_of_repeat_x k :
  String.list_byte_of_string (String.string_of_list_ascii (repeat "x"%char k))
  = repeat Byte.x78 k.
Proof.
  unfold String.list_byte_of_string.
  rewrite String.list_ascii_of_string_of_list_ascii.
  induction k as [|k IH]; [done|]. cbn [repeat map]. by rewrite IH.
Qed.

Lemma length_repeat_x k :
  String.length (String.string_of_list_ascii (repeat "x"%char k)) = k.
Proof.
  induction k as [|k IH]; [done|].
  cbn [repeat String.string_of_list_ascii String.length]. by rewrite IH.
Qed.

(** What the two conversions of [read] give together. *)
Lemma fake_data_outcome L length :
  match FakeReadStream.repeat_x L length with
  | Ok s => FakeReadStream.bytes_utf8 L s
  | Raise e => Raise e
  end =
  if FakeReadStream.readable L length
  then Ok (FakeReadStream.expected_data length)
  else Raise (match FakeReadStream.index length with
              | None => TypeError
              | Some n =>
                  if (n <? - FakeReadStream.maxsize L - 1)
                     || (FakeReadStream.maxsize L <? n)
                  then OverflowError
                  else MemoryError
              end).
Proof.
  unfold FakeReadStream.repeat_x, FakeReadStream.readable,
    FakeReadStream.expected_data.
  destruct (FakeReadStream.index length) as [n|]; [|done]. cbn [default].
  destruct (Z.ltb_spec n (- FakeReadStream.maxsize L - 1)) as [H1|H1];
    destruct (Z.ltb_spec (FakeReadStream.maxsize L) n) as [H2|H2];
    destruct (Z.leb_spec (- FakeReadStream.maxsize L - 1) n) as [H3|H3];
    destruct (Z.leb_spec n (FakeReadStream.maxsize L)) as [H4|H4];
    try lia; cbn [orb andb]; try done.
  destruct (Z.leb_spec n 0) as [H5|H5]; cbn [orb].
  - change (id n) with n. replace (Z.to_nat n) with O by lia. done.
  - destruct (FakeReadStream.available L n) eqn:Ha; [|done].
    unfold FakeReadStream.bytes_utf8.
    rewrite length_repeat_x, bytes_of_repeat_x, Z2Nat.id, Ha by lia.
    change (id n) with n.
    destruct (Z.to_nat n) as [|k] eqn:Hk; [exfalso; lia|]. done.
Qed.

(** One [read]: a length that cannot be read raises before the future is
    looked at; otherwise the data is returned and the future, if it was
    pending, is resolved with [None]. *)
Lemma fake_read L fut length s w :
  futures w !! fut = Some s ->
  let out := FakeReadStream.read L (FakeReadStream.init fut) length w in
  futures out.2 !! fut =
    Some (after s (if FakeReadStream.readable L length
                   then Some (Ok PyNone) else None)) /\
  Future.fired fut out.2 =
    (Future.fired fut w +
     match s with
     | Pending => if FakeReadStream.readable L length then 1 else 0
     | _ => 0
     end)%nat /\
  (FakeReadStream.readable L length = true ->
   out.1 = Ok (FakeReadStream.expected_data length)) /\
  (FakeReadStream.readable L length = false ->
   out = (Raise (match FakeReadStream.index length with
                 | None => TypeError
                 | Some n =>
                     if (n <? - FakeReadStream.maxsize L - 1)
                        || (FakeReadStream.maxsize L <? n)
                     then OverflowError
                     else MemoryError
                 end), w)).
Proof.
  intros Hs out. subst out.
  pose proof (fake_data_outcome L length) as Hd.
  unfold FakeReadStream.read, bind, lift.
  destruct (FakeReadStream.repeat_x L length) as [str|e].
  - destruct (FakeReadStream.bytes_utf8 L str) as [data|e].
    + destruct (FakeReadStream.readable L length); [|done].
      injection Hd as ->.
      unfold future_done. cbn [FakeReadStream._future FakeReadStream.init].
      rewrite Hs.
      assert (s = Pending \/ s <> Pending) as [->|Hnp]
        by (destruct s; [left|right|right]; done).
      * cbn [negb]. unfold Future.set_result.
        pose proof (fired_resolve_pending fut (Ok PyNone) w Hs) as Hn.
        rewrite resolve_pending in Hn |- * by done.
        cbn [fst snd] in Hn |- *. unfold ret. cbn [fst snd].
        cbn [futures with_notified with_futures].
        rewrite lookup_insert_eq, Hn. repeat split; try done. lia.
      * destruct s; [done| |]; cbn; rewrite Hs, Nat.add_0_r; done.
    + destruct (FakeReadStream.readable L length); [done|].
      injection Hd as ->. cbn [fst snd]. rewrite Hs.
      destruct s; cbn; rewrite Nat.add_0_r; done.
  - destruct (FakeReadStream.readable L length); [done|].
    injection Hd as ->. cbn [fst snd]. rewrite Hs.
    destruct s; cbn; rewrite Nat.add_0_r; done.
Qed.

(** X12.  [FakeReadStream.read] with a length that can be read (an integer
    that is an index, with the memory for that many bytes at hand) returns
    exactly that many bytes, all of them the letter x, and none for a
    length that is not positive; with any other length it raises
    ([TypeError] for a length that is no integer, [OverflowError] for one
    that is no index, [MemoryError] otherwise) and does not touch its
    future.  Over any sequence of reads, the first read that returns
    resolves the stream's future with [None] if it is still pending; no
    other read changes the future, and a future that was already done or
    cancelled is left alone, so its waiters are notified at most once. *)
Theorem fake_read_stream L fut lengths : forall s w,
  futures w !! fut = Some s ->
  let out := FakeReadStream.read_all L (FakeReadStream.init fut) lengths w in
  length out.1 = length lengths /\
  (forall j v, lengths !! j = Some v -> FakeReadStream.readable L v = true ->
     out.1 !! j = Some (Ok (FakeReadStream.expected_data v)) /\
     exists n, FakeReadStream.index v = Some n /\
       length (FakeReadStream.expected_data v) = Z.to_nat n /\
       Forall (eq Byte.x78) (FakeReadStream.expected_data v)) /\
  (forall j v, lengths !! j = Some v -> FakeReadStream.readable L v = false ->
     out.1 !! j =
       Some (Raise (match FakeReadStream.index v with
                    | None => TypeError
                    | Some n =>
                        if (n <? - FakeReadStream.maxsize L - 1)
                           || (FakeReadStream.maxsize L <? n)
                        then OverflowError
                        else MemoryError
                    end))) /\
  (existsb (FakeReadStream.readable L) lengths = false -> out.2 = w) /\
  futures out.2 !! fut =
    Some (after s (if existsb (FakeReadStream.readable L) lengths
                   then Some (Ok PyNone) else None)) /\
  Future.fired fut out.2 =
    (Future.fired fut w +
     match s with
     | Pending => if existsb (FakeReadStream.readable L) lengths then 1 else 0
     | _ => 0
     end)%nat.
Proof.
  induction lengths as [|v lengths IH]; intros s w Hs; cbv zeta.
  - cbn. rewrite Hs. destruct s; cbn; rewrite Nat.add_0_r; repeat split; done.
  - cbn [FakeReadStream.read_all].
    pose proof (fake_read L fut v s w Hs) as (Hf & Hn & Hok & Herr).
    cbv zeta in Hf, Hn, Hok, Herr.
    destruct (FakeReadStream.read L (FakeReadStream.init fut) v w) as [res w1].
    cbn [fst snd] in Hf, Hn, Hok, Herr.
    specialize (IH _ w1 Hf). cbv zeta in IH.
    destruct (FakeReadStream.read_all L (FakeReadStream.init fut) lengths w1)
      as [rs w2].
    cbn [fst snd existsb] in *.
    destruct IH as (I1 & I2 & I3 & I4 & I5 & I6).
    split; [cbn; by rewrite I1|].
    split.
    { intros [|j] v' Hj Hr; cbn in Hj |- *; [|by apply (I2 j v')].
      injection Hj as <-. split; [by rewrite Hok|].
      unfold FakeReadStream.readable in Hr.
      destruct (FakeReadStream.index v) as [n|] eqn:Hi; [|done].
      exists n. split; [done|].
      unfold FakeReadStream.expected_data. rewrite Hi. cbn [default].
      split; [by rewrite repeat_length|].
      apply Forall_forall. intros x Hx. apply list_elem_of_In in Hx.
      by apply repeat_spec in Hx. }
    split.
    { intros [|j] v' Hj Hr; cbn in Hj |- *; [|by apply (I3 j v')].
      injection Hj as <-. specialize (Herr Hr). by injection Herr as ->. }
    split.
    { intros Hno. apply orb_false_elim in Hno as [Hr Hno].
      specialize (Herr Hr). injection Herr as _ ->. by apply I4. }
    split; [by rewrite I5, after_after|].
    rewrite I6, Hn.
    destruct s, (FakeReadStream.readable L v),
      (existsb (FakeReadStream.readable L) lengths); cbn; lia.
Qed.

(** X12 at a pending future: a read of three bytes, a read of a length
    beyond [sys.maxsize] and a read of no byte. *)
Lemma fake_read_stream_witness :
  let L := {| FakeReadStream.maxsize := 2 ^ 63 - 1;
              FakeReadStream.available := fun n => n <? 2 ^ 40 |} in
  let w := (Future.new empty_world).2 in
  let out := FakeReadStream.read_all L (FakeReadStream.init 0)
               [PyInt 3; PyInt (2 ^ 63); PyInt 0] w in
  futures w !! 0%nat = Some Pending /\
  out.1 = [Ok [Byte.x78; Byte.x78; Byte.x78]; Raise OverflowError; Ok []] /\
  futures out.2 !! 0%nat = Some (Finished (Ok PyNone)) /\
  Future.fired 0 out.2 = 1%nat.
Proof.
  intros L w out.
  assert (Hw : futures w !! 0%nat = Some Pending) by (vm_compute; reflexivity).
  split; [exact Hw|].
  destruct (fake_read_stream L 0 [PyInt 3; PyInt (2 ^ 63); PyInt 0] Pending w Hw)
    as (Hl & Hok & Herr & _ & Hf & Hn).
  fold out in Hl, Hok, Herr, Hf, Hn.
  split; [|split].
  - destruct (Hok 0%nat (PyInt 3) eq_refl eq_refl) as [H0 _].
    pose proof (Herr 1%nat (PyInt (2 ^ 63)) eq_refl eq_refl) as H1.
    destruct (Hok 2%nat (PyInt 0) eq_refl eq_refl) as [H2 _].
    destruct out.1 as [|r0 [|r1 [|r2 [|r3 rs]]]]; try discriminate Hl.
    cbn in H0, H1, H2. injection H0 as ->. injection H1 as ->. injection H2 as ->.
    reflexivity.
  - rewrite Hf. reflexivity.
  - rewrite Hn. reflexivity.
Defined.
